(** * moon-click: floating text labels

    A shallow embedding of the Python sources [main.py], [windows.py] and
    [tray.py]: the hotkey listener, the input prompt, the gesture handlers
    of a floating label window, the tray's [stop] and the application
    controller, followed by the properties the specification states about
    them.

    Conventions.
    - Python [int] is [Z]; pixel coordinates, sizes and counters are exact.
    - Clock readings are rationals, and the one power of a float, in the
      font size, is taken exactly.
    - Python [str] is a list of Unicode code points.
    - A method that mutates [self] is a function from the object's state to
      its new state; a method that may raise runs in the monad [Py.M], which
      keeps the state reached when the exception left the callee, as Python
      does.
    - The toolkit (Tk), the [keyboard] library and the tray library are
      outside the repository: each one is a small record holding what the
      code reads back from it and a log of the calls the code makes. *)

From Stdlib Require Import ZArith NArith QArith List Bool Lia String Ascii.
Import ListNotations.

Local Open Scope Z_scope.

(* ================================================================== *)
(** * Python values and control *)
(* ================================================================== *)

Module Py.

(** Exceptions that occur in the modelled code. *)
Inductive exn : Type :=
| ValueError                       (* raise ValueError(...) *)
| TypeError                        (* int() applied to a complex *)
| AttributeError                   (* a method called on None *)
| LibraryError                     (* raised inside keyboard, pystray or Tk *)
| RegistrationFailed (cause : exn) (* Exception(error_msg) in start *)
| FallbackFailed (cause : exn).    (* Exception("... including default") *)

Inductive outcome (A : Type) : Type :=
| Returned (a : A)
| Raised (e : exn).
Arguments Returned {A} a.
Arguments Raised {A} e.

(** Computations over a mutable world [S] that may raise.  The world is
    returned in both cases: effects made before a [raise] stay. *)
Definition M (S A : Type) : Type := S -> outcome A * S.

Definition ret {S A} (a : A) : M S A := fun s => (Returned a, s).

Definition bind {S A B} (m : M S A) (k : A -> M S B) : M S B :=
  fun s => match m s with
           | (Returned a, s') => k a s'
           | (Raised e, s') => (Raised e, s')
           end.

Definition raise {S A} (e : exn) : M S A := fun s => (Raised e, s).

(** [try: m  except Exception as e: h e] *)
Definition try_except {S A} (m : M S A) (h : exn -> M S A) : M S A :=
  fun s => match m s with
           | (Returned a, s') => (Returned a, s')
           | (Raised e, s') => h e s'
           end.

(** [try: m  except: pass] *)
Definition try_pass {S} (m : M S unit) : M S unit :=
  try_except m (fun _ => ret tt).

Definition modify {S} (f : S -> S) : M S unit := fun s => (Returned tt, f s).

Definition gets {S A} (f : S -> A) : M S A := fun s => (Returned (f s), s).

(** [for x in xs: body x] *)
Fixpoint for_each {S A} (xs : list A) (body : A -> M S unit) : M S unit :=
  match xs with
  | [] => ret tt
  | x :: rest => bind (body x) (fun _ => for_each rest body)
  end.

End Py.

Declare Scope py_scope.
Delimit Scope py_scope with py.
Notation "x <- m ;; k" := (Py.bind m (fun x => k))
  (at level 61, m at next level, right associativity) : py_scope.
Notation "m ;; k" := (Py.bind m (fun _ => k))
  (at level 61, right associativity) : py_scope.

(* ================================================================== *)
(** * Strings *)
(* ================================================================== *)

Module PyStr.

(** A Unicode code point. *)
Definition char : Type := N.
Definition str : Type := list char.

Definition of_string (s : string) : str :=
  map N_of_ascii (list_ascii_of_string s).

Fixpoint eqb (a b : str) : bool :=
  match a, b with
  | [], [] => true
  | x :: a', y :: b' => N.eqb x y && eqb a' b'
  | _, _ => false
  end.

(** [if s:] *)
Definition truthy (s : str) : bool :=
  match s with [] => false | _ :: _ => true end.

Definition between (lo hi c : N) : bool := (N.leb lo c && N.leb c hi)%bool.

(** [str.isspace] on one character: the code points of bidirectional
    type WS, B or S, or of category Zs. *)
Definition isspace (c : char) : bool :=
  (between 9 13 c          (* TAB LF VT FF CR *)
   || between 28 32 c      (* FS GS RS US SPACE *)
   || N.eqb c 133          (* U+0085 *)
   || N.eqb c 160          (* U+00A0 *)
   || N.eqb c 5760         (* U+1680 *)
   || between 8192 8202 c  (* U+2000 .. U+200A *)
   || N.eqb c 8232 || N.eqb c 8233   (* U+2028, U+2029 *)
   || N.eqb c 8239         (* U+202F *)
   || N.eqb c 8287         (* U+205F *)
   || N.eqb c 12288)%bool. (* U+3000 *)

Fixpoint lstrip (s : str) : str :=
  match s with
  | [] => []
  | c :: rest => if isspace c then lstrip rest else s
  end.

Definition rstrip (s : str) : str := rev (lstrip (rev s)).

(** [s.strip()] *)
Definition strip (s : str) : str := rstrip (lstrip s).

(** Every character of [s] is white space; the empty text is blank. *)
Definition blank (s : str) : Prop := Forall (fun c => isspace c = true) s.

(** [s.lower()], on the letters A .. Z.  The one caller only counts the
    pieces between ['+'] signs, and no case mapping produces or removes
    a ['+']. *)
Definition lower_char (c : char) : char :=
  if between 65 90 c then (c + 32)%N else c.
Definition lower (s : str) : str := map lower_char s.

(** [s.split(sep)] for a one-character separator. *)
Fixpoint split (sep : char) (s : str) : list str :=
  match s with
  | [] => [[]]
  | c :: rest =>
      if N.eqb c sep then [] :: split sep rest
      else match split sep rest with
           | [] => [[c]]
           | p :: ps => (c :: p) :: ps
           end
  end.

Definition plus_sign : char := 43%N.

End PyStr.

(* ================================================================== *)
(** * The [keyboard] library, as the listener sees it *)
(* ================================================================== *)

Module Keyboard.
Import Py PyStr.

Record t : Type := mk {
  accepts : list str -> str -> bool;
    (* whether [add_hotkey] takes a combination, given the ones tried so far *)
  releases : str -> bool;
    (* whether [remove_hotkey] of a registered combination goes through *)
  attempts : list str;     (* every [add_hotkey] call, oldest first *)
  registered : list str    (* the combinations now registered *)
}.

Definition add_hotkey (h : str) : M t unit := fun kb =>
  let ok := accepts kb (attempts kb) h in
  (if ok then Returned tt else Raised LibraryError,
   mk (accepts kb) (releases kb) (attempts kb ++ [h])
      (if ok then h :: registered kb else registered kb)).

Fixpoint remove_first (h : str) (l : list str) : list str :=
  match l with
  | [] => []
  | x :: rest => if PyStr.eqb h x then rest else x :: remove_first h rest
  end.

Definition remove_hotkey (h : str) : M t unit := fun kb =>
  if (existsb (PyStr.eqb h) (registered kb) && releases kb h)%bool
  then (Returned tt,
        mk (accepts kb) (releases kb) (attempts kb)
           (remove_first h (registered kb)))
  else (Raised LibraryError, kb).

End Keyboard.

(* ================================================================== *)
(** * main.py: [HotkeyListener] *)
(* ================================================================== *)

Module HotkeyListener.
Import Py PyStr.
Local Open Scope py_scope.

Record t : Type := mk {
  hotkey : str;
  is_running : bool
}.

(** The world of the listener: itself and the library it registers with. *)
Definition world : Type := (t * Keyboard.t)%type.

Definition self : M world t := gets fst.
Definition set_self (l : t) : M world unit := modify (fun w => (l, snd w)).
Definition keyboard {A} (m : M Keyboard.t A) : M world A := fun w =>
  match m (snd w) with (r, kb) => (r, (fst w, kb)) end.

Definition default_hotkey : str := of_string "ctrl+shift+t".

(** [_validate_hotkey] *)
Definition _validate_hotkey (hotkey : str) : bool :=
  if negb (truthy hotkey) then false
  else if (List.length (strip hotkey) =? 0)%nat then false
  else
    let parts := split plus_sign (lower hotkey) in
    if (List.length parts =? 0)%nat then false
    else true.

(** [start] *)
Definition start : M world unit :=
  l <- self ;;
  if is_running l then ret tt
  else
    try_except
      ((if negb (_validate_hotkey (hotkey l)) then raise ValueError
        else ret tt) ;;
       keyboard (Keyboard.add_hotkey (hotkey l)) ;;
       set_self (mk (hotkey l) true))
      (fun e =>
         if negb (PyStr.eqb (hotkey l) default_hotkey) then
           set_self (mk default_hotkey (is_running l)) ;;
           try_except
             (keyboard (Keyboard.add_hotkey default_hotkey) ;;
              set_self (mk default_hotkey true))
             (fun fallback_error => raise (FallbackFailed fallback_error))
         else raise (RegistrationFailed e)).

(** [stop] *)
Definition stop : M world unit :=
  l <- self ;;
  if negb (is_running l) then ret tt
  else
    try_except
      (keyboard (Keyboard.remove_hotkey (hotkey l)) ;;
       set_self (mk (hotkey l) false))
      (fun _ => ret tt).

End HotkeyListener.

(* ================================================================== *)
(** * The toolkit, as the windows see it *)
(* ================================================================== *)

Module Tk.
Import PyStr.

(** A pointer event: the screen coordinates it carries. *)
Record Event : Type := mkEvent {
  x_root : Z;
  y_root : Z
}.

(** A [Toplevel].  A geometry request takes effect at once, so what
    [winfo_*] returns is what the last request set. *)
Record Toplevel : Type := mkToplevel {
  winfo_x : Z;
  winfo_y : Z;
  winfo_width : Z;
  winfo_height : Z;
  topmost_requests : nat;      (* calls of attributes('-topmost', True) *)
  children : list (Z * Z)      (* confirmation popups opened, oldest first,
                                  each with the position it was given *)
}.

(** [w.geometry(f"+{x}+{y}")] *)
Definition move_to (x y : Z) (w : Toplevel) : Toplevel :=
  mkToplevel x y (winfo_width w) (winfo_height w)
             (topmost_requests w) (children w).

(** [w.geometry(f"{width}x{height}+{x}+{y}")] *)
Definition geometry (width height x y : Z) (w : Toplevel) : Toplevel :=
  mkToplevel x y width height (topmost_requests w) (children w).

(** [w.attributes('-topmost', True)] *)
Definition topmost (w : Toplevel) : Toplevel :=
  mkToplevel (winfo_x w) (winfo_y w) (winfo_width w) (winfo_height w)
             (S (topmost_requests w)) (children w).

(** [tk.Toplevel(w)] placed at [x], [y] *)
Definition open_child (x y : Z) (w : Toplevel) : Toplevel :=
  mkToplevel (winfo_x w) (winfo_y w) (winfo_width w) (winfo_height w)
             (topmost_requests w) (children w ++ [(x, y)]).

Inductive cursor : Type :=
| cursor_default   (* '' *)
| cursor_fleur
| cursor_sizing
| cursor_xterm.

Inductive state : Type := normal | disabled.

(** A [Text] widget. *)
Record Text : Type := mkText {
  font_size : Z;
  text_cursor : cursor;
  text_state : state;
  select_all_requests : nat;   (* focus_set + tag_add('sel', '1.0', 'end') *)
  keys_bound : bool            (* <Escape> and <Return> are bound *)
}.

Definition config_cursor (c : cursor) (t : Text) : Text :=
  mkText (font_size t) c (text_state t) (select_all_requests t) (keys_bound t).

Definition config_font (size : Z) (t : Text) : Text :=
  mkText size (text_cursor t) (text_state t) (select_all_requests t)
         (keys_bound t).

End Tk.

(* ================================================================== *)
(** * windows.py: [FloatingWindow] *)
(* ================================================================== *)

Module FloatingWindow.
Import Py PyStr.

Record t : Type := mk {
  ident : nat;                 (* the identity of the object *)
  text : str;
  window : Tk.Toplevel;        (* the last geometry, also once closed *)
  closed : bool;               (* [self.window] is [None] *)
  text_widget : Tk.Text;
  _drag_start_x : Z;
  _drag_start_y : Z;
  _resize_start_x : Z;
  _resize_start_y : Z;
  _resize_start_width : Z;
  _resize_start_height : Z;
  _is_editing : bool;
  _base_font_size : Z;
  _click_count : Z;
  _last_click_time : Q         (* seconds, as [time.time()] gives them *)
}.

(** ** Field updates *)

Definition set_window (w : Tk.Toplevel) (s : t) : t :=
  mk (ident s) (text s) w (closed s) (text_widget s)
     (_drag_start_x s) (_drag_start_y s)
     (_resize_start_x s) (_resize_start_y s)
     (_resize_start_width s) (_resize_start_height s)
     (_is_editing s) (_base_font_size s) (_click_count s)
     (_last_click_time s).

Definition set_closed (b : bool) (s : t) : t :=
  mk (ident s) (text s) (window s) b (text_widget s)
     (_drag_start_x s) (_drag_start_y s)
     (_resize_start_x s) (_resize_start_y s)
     (_resize_start_width s) (_resize_start_height s)
     (_is_editing s) (_base_font_size s) (_click_count s)
     (_last_click_time s).

Definition set_text_widget (w : Tk.Text) (s : t) : t :=
  mk (ident s) (text s) (window s) (closed s) w
     (_drag_start_x s) (_drag_start_y s)
     (_resize_start_x s) (_resize_start_y s)
     (_resize_start_width s) (_resize_start_height s)
     (_is_editing s) (_base_font_size s) (_click_count s)
     (_last_click_time s).

Definition set_drag_start (x y : Z) (s : t) : t :=
  mk (ident s) (text s) (window s) (closed s) (text_widget s)
     x y
     (_resize_start_x s) (_resize_start_y s)
     (_resize_start_width s) (_resize_start_height s)
     (_is_editing s) (_base_font_size s) (_click_count s)
     (_last_click_time s).

Definition set_resize_start (x y width height : Z) (s : t) : t :=
  mk (ident s) (text s) (window s) (closed s) (text_widget s)
     (_drag_start_x s) (_drag_start_y s)
     x y width height
     (_is_editing s) (_base_font_size s) (_click_count s)
     (_last_click_time s).

Definition set_is_editing (b : bool) (s : t) : t :=
  mk (ident s) (text s) (window s) (closed s) (text_widget s)
     (_drag_start_x s) (_drag_start_y s)
     (_resize_start_x s) (_resize_start_y s)
     (_resize_start_width s) (_resize_start_height s)
     b (_base_font_size s) (_click_count s)
     (_last_click_time s).

Definition set_click_count (n : Z) (s : t) : t :=
  mk (ident s) (text s) (window s) (closed s) (text_widget s)
     (_drag_start_x s) (_drag_start_y s)
     (_resize_start_x s) (_resize_start_y s)
     (_resize_start_width s) (_resize_start_height s)
     (_is_editing s) (_base_font_size s) n
     (_last_click_time s).

Definition set_last_click_time (q : Q) (s : t) : t :=
  mk (ident s) (text s) (window s) (closed s) (text_widget s)
     (_drag_start_x s) (_drag_start_y s)
     (_resize_start_x s) (_resize_start_y s)
     (_resize_start_width s) (_resize_start_height s)
     (_is_editing s) (_base_font_size s) (_click_count s)
     q.

(** ** Construction *)

(** [__init__] followed by [_create_window]: every gesture field at its
    initial value, a read-only text widget in the base font, and a
    500x200 window. *)
Definition init (id : nat) (text : str) : t :=
  mk id text
     (Tk.mkToplevel 0 0 500 200 1 [])
     false
     (Tk.mkText 16 Tk.cursor_default Tk.disabled 0 false)
     0 0 0 0 0 0
     false 16 0 (0 # 1).

(** [show(x, y)] with both coordinates given *)
Definition show (x y : Z) (s : t) : t :=
  set_window (Tk.move_to x y (window s)) s.

(** ** Font scaling *)

(** The greatest [r] with [r ^ 10 <= x], found a bit at a time:
    the root of [x] is twice the root of [x / 2^10], or one more. *)
Fixpoint root10_bits (bits : nat) (x : Z) : Z :=
  match bits with
  | O => 0
  | S bits' =>
      if x <? 1 then 0
      else
        let r := 2 * root10_bits bits' (x / 1024) in
        if (r + 1) ^ 10 <=? x then r + 1 else r
  end.

Definition root10 (x : Z) : Z := root10_bits (S (Z.to_nat (Z.log2 x))) x.

(** [int(base * (area / base_area) ** 0.3)] for [area >= 0], with the
    power taken exactly: the greatest integer [n >= 0] with
    [n <= base * (area / base_area) ^ (3/10)], that is, with
    [n ^ 10 <= base ^ 10 * area ^ 3 / base_area ^ 3]. *)
Definition scaled (base area base_area : Z) : Z :=
  root10 ((base ^ 10 * area ^ 3) / base_area ^ 3).

(** The font size [_update_font_size] computes for a window of the given
    width and height.  A negative area has a complex power, on which
    [int] raises. *)
Definition font_size_for (base window_width window_height : Z) : outcome Z :=
  let area := window_width * window_height in
  let base_area := 500 * 200 in
  if area <? 0 then Raised TypeError
  else
    let font_size := scaled base area base_area in
    Returned (Z.max 10 (Z.min font_size 32)).

(** [_update_font_size] *)
Definition _update_font_size : M t unit := fun s =>
  let window_width := Tk.winfo_width (window s) in
  let window_height := Tk.winfo_height (window s) in
  match font_size_for (_base_font_size s) window_width window_height with
  | Returned font_size =>
      (Returned tt, set_text_widget (Tk.config_font font_size (text_widget s)) s)
  | Raised e => (Raised e, s)
  end.

(** ** Gesture handlers *)

(** [a < b] on the clock's values *)
Definition Qltb (a b : Q) : bool := negb (Qle_bool b a).

(** [abs(delta_x) > 5 or abs(delta_y) > 5] *)
Definition beyond_threshold (delta_x delta_y : Z) : bool :=
  ((5 <? Z.abs delta_x) || (5 <? Z.abs delta_y))%bool.

(** [_enter_edit_mode] *)
Definition _enter_edit_mode (s : t) : t :=
  let s := set_is_editing true s in
  let w := text_widget s in
  set_text_widget
    (Tk.mkText (Tk.font_size w) Tk.cursor_xterm Tk.normal
               (S (Tk.select_all_requests w)) true) s.

(** [_exit_edit_mode] *)
Definition _exit_edit_mode (s : t) : t :=
  let s := set_is_editing false s in
  let w := text_widget s in
  set_text_widget
    (Tk.mkText (Tk.font_size w) Tk.cursor_default Tk.disabled
               (Tk.select_all_requests w) false) s.

(** [_on_left_click]; [current_time] is the value [time.time()] returns
    when the handler runs. *)
Definition _on_left_click (current_time : Q) (event : Tk.Event) (s : t) : t :=
  let s :=
    if Qltb (current_time - _last_click_time s) (1 # 2)
    then set_click_count (_click_count s + 1) s
    else set_click_count 1 s in
  let s := set_last_click_time current_time s in
  if 3 <=? _click_count s then
    let s := _enter_edit_mode s in
    set_click_count 0 s
  else if negb (_is_editing s) then
    set_drag_start (Tk.x_root event) (Tk.y_root event) s
  else s.

(** [_on_left_drag] *)
Definition _on_left_drag (event : Tk.Event) (s : t) : t :=
  if negb (_is_editing s) then
    let delta_x := Tk.x_root event - _drag_start_x s in
    let delta_y := Tk.y_root event - _drag_start_y s in
    if beyond_threshold delta_x delta_y then
      let s := set_click_count 0 s in
      let current_x := Tk.winfo_x (window s) in
      let current_y := Tk.winfo_y (window s) in
      let new_x := current_x + delta_x in
      let new_y := current_y + delta_y in
      let s := set_window (Tk.move_to new_x new_y (window s)) s in
      let s := set_drag_start (Tk.x_root event) (Tk.y_root event) s in
      let s := set_window (Tk.topmost (window s)) s in
      set_text_widget (Tk.config_cursor Tk.cursor_fleur (text_widget s)) s
    else s
  else s.

(** [_on_left_release] *)
Definition _on_left_release (event : Tk.Event) (s : t) : t :=
  if negb (_is_editing s) then
    set_text_widget (Tk.config_cursor Tk.cursor_default (text_widget s)) s
  else s.

(** [_on_right_click] *)
Definition _on_right_click (event : Tk.Event) (s : t) : t :=
  if negb (_is_editing s) then
    set_resize_start (Tk.x_root event) (Tk.y_root event)
                     (Tk.winfo_width (window s)) (Tk.winfo_height (window s)) s
  else s.

(** [_on_right_drag] *)
Definition _on_right_drag (event : Tk.Event) : M t unit := fun s =>
  if negb (_is_editing s) then
    let delta_x := Tk.x_root event - _resize_start_x s in
    let delta_y := Tk.y_root event - _resize_start_y s in
    if beyond_threshold delta_x delta_y then
      let new_width := Z.max (_resize_start_width s + delta_x) 200 in
      let new_height := Z.max (_resize_start_height s + delta_y) 100 in
      let current_x := Tk.winfo_x (window s) in
      let current_y := Tk.winfo_y (window s) in
      let s :=
        set_window
          (Tk.geometry new_width new_height current_x current_y (window s)) s in
      (_update_font_size ;;
       modify (fun s => set_window (Tk.topmost (window s)) s) ;;
       modify (fun s =>
                 set_text_widget
                   (Tk.config_cursor Tk.cursor_sizing (text_widget s)) s))%py s
    else (Returned tt, s)
  else (Returned tt, s).

(** [_confirm_delete]: the popup is a child of the window, centred on it. *)
Definition _confirm_delete (s : t) : t :=
  let x := Tk.winfo_x (window s) + (Tk.winfo_width (window s) - 250) / 2 in
  let y := Tk.winfo_y (window s) + (Tk.winfo_height (window s) - 100) / 2 in
  set_window (Tk.open_child x y (window s)) s.

(** [_on_right_release] *)
Definition _on_right_release (event : Tk.Event) (s : t) : t :=
  if negb (_is_editing s) then
    let delta_x := Tk.x_root event - _resize_start_x s in
    let delta_y := Tk.y_root event - _resize_start_y s in
    let s :=
      if ((Z.abs delta_x <=? 5) && (Z.abs delta_y <=? 5))%bool
      then _confirm_delete s
      else s in
    set_text_widget (Tk.config_cursor Tk.cursor_default (text_widget s)) s
  else s.

(** ** Events *)

(** What the bindings of [_create_window] and [_enter_edit_mode] deliver
    to the handlers.  A press carries the clock's reading. *)
Inductive event : Type :=
| Button1 (current_time : Q) (e : Tk.Event)
| B1Motion (e : Tk.Event)
| ButtonRelease1 (e : Tk.Event)
| Button3 (e : Tk.Event)
| B3Motion (e : Tk.Event)
| ButtonRelease3 (e : Tk.Event)
| KeyEscape
| KeyReturn.

(** One event.  An exception that leaves a handler is reported by the
    toolkit's event loop; the state is the one the handler reached. *)
Definition dispatch (ev : event) (s : t) : t :=
  match ev with
  | Button1 now e => _on_left_click now e s
  | B1Motion e => _on_left_drag e s
  | ButtonRelease1 e => _on_left_release e s
  | Button3 e => _on_right_click e s
  | B3Motion e => snd (_on_right_drag e s)
  | ButtonRelease3 e => _on_right_release e s
  | KeyEscape | KeyReturn =>
      if Tk.keys_bound (text_widget s) then _exit_edit_mode s else s
  end.

Definition run (evs : list event) (s : t) : t :=
  fold_left (fun s ev => dispatch ev s) evs s.

(** The number of delete confirmations opened so far. *)
Definition confirmations (s : t) : nat :=
  List.length (Tk.children (window s)).

(** The position and size of the window. *)
Definition placement (s : t) : Z * Z * Z * Z :=
  (Tk.winfo_x (window s), Tk.winfo_y (window s),
   Tk.winfo_width (window s), Tk.winfo_height (window s)).
End FloatingWindow.

(* ================================================================== *)
(** * windows.py: [InputWindow] *)
(* ================================================================== *)

Module InputWindow.
Import Py PyStr.
Local Open Scope py_scope.

Record t : Type := mk {
  window : option Tk.Toplevel;
  entry : option str          (* the Entry widget: the line typed so far *)
}.

(** The prompt belongs to some owner with state [W], which supplies the
    [on_submit] callback and in whose state the prompt is stored. *)
Section Owner.
Context {W : Type}.
Variable get_self : W -> t.
Variable set_self : t -> W -> W.
Variable on_submit : str -> M W unit.
Variable destroy : M W unit.        (* [self.window.destroy()] *)
Variable screen : W -> Z * Z.       (* [winfo_screenwidth/height] *)

(** [show]: the window is created at 450x180 and centred. *)
Definition show : M W unit :=
  iw <- gets get_self ;;
  match window iw with
  | Some _ => ret tt
  | None =>
      scr <- gets screen ;;
      let window_width := 450 in
      let window_height := 180 in
      let x := (fst scr - window_width) / 2 in
      let y := (snd scr - window_height) / 2 in
      modify (set_self
                (mk (Some (Tk.mkToplevel x y window_width window_height 1 []))
                    (Some [])))
  end.

(** [hide] *)
Definition hide : M W unit :=
  iw <- gets get_self ;;
  match window iw with
  | Some _ => destroy ;; modify (set_self (mk None None))
  | None => ret tt
  end.

(** [_on_submit] *)
Definition _on_submit : M W unit :=
  iw <- gets get_self ;;
  match entry iw with
  | None => raise AttributeError
  | Some content =>
      let text := strip content in
      if truthy text then on_submit text ;; hide
      else ret tt
  end.

(** [_on_cancel] *)
Definition _on_cancel : M W unit := hide.

End Owner.

End InputWindow.

(* ================================================================== *)
(** * tray.py: [SystemTray] *)
(* ================================================================== *)

Module SystemTray.

Record t : Type := mk {
  icon : option bool     (* the icon, when created: whether it is running *)
}.

End SystemTray.

(* ================================================================== *)
(** * main.py: [Application] *)
(* ================================================================== *)

Module Application.
Import Py PyStr.
Local Open Scope py_scope.

(** The hidden root window. *)
Record Root : Type := mkRoot {
  winfo_screenwidth : Z;
  winfo_screenheight : Z;
  mainloop_left : bool;     (* [quit()] went through *)
  destroyed : bool          (* [destroy()] went through *)
}.

Record t : Type := mk {
  root : option Root;
  hotkey_listener : option HotkeyListener.t;
  system_tray : option SystemTray.t;
  input_window : option InputWindow.t;
  floating_windows : list FloatingWindow.t;
  window_offset : Z;
  window_offset_step : Z
}.

(** [__init__] *)
Definition init : t := mk None None None None [] 0 60.

Definition set_root (r : option Root) (a : t) : t :=
  mk r (hotkey_listener a) (system_tray a) (input_window a)
     (floating_windows a) (window_offset a) (window_offset_step a).

Definition set_hotkey_listener (l : option HotkeyListener.t) (a : t) : t :=
  mk (root a) l (system_tray a) (input_window a)
     (floating_windows a) (window_offset a) (window_offset_step a).

Definition set_system_tray (s : option SystemTray.t) (a : t) : t :=
  mk (root a) (hotkey_listener a) s (input_window a)
     (floating_windows a) (window_offset a) (window_offset_step a).

Definition set_input_window (i : option InputWindow.t) (a : t) : t :=
  mk (root a) (hotkey_listener a) (system_tray a) i
     (floating_windows a) (window_offset a) (window_offset_step a).

Definition set_floating_windows (l : list FloatingWindow.t) (a : t) : t :=
  mk (root a) (hotkey_listener a) (system_tray a) (input_window a)
     l (window_offset a) (window_offset_step a).

Definition set_window_offset (o : Z) (a : t) : t :=
  mk (root a) (hotkey_listener a) (system_tray a) (input_window a)
     (floating_windows a) o (window_offset_step a).

(** [_calculate_window_position] *)
Definition _calculate_window_position : M t (Z * Z) := fun a =>
  match root a with
  | None => (Raised AttributeError, a)
  | Some r =>
      let screen_width := winfo_screenwidth r in
      let screen_height := winfo_screenheight r in
      let window_width := 250 in
      let window_height := 100 in
      let margin := 20 in
      let x := screen_width - window_width - margin in
      let y := margin + window_offset a in
      let a := set_window_offset (window_offset a + window_offset_step a) a in
      if screen_height - margin <? y + window_height then
        (Returned (x, margin), set_window_offset 0 a)
      else (Returned (x, y), a)
  end.

(** What [n] calls in a row return, first call first. *)
Fixpoint positions (n : nat) (a : t) : list (outcome (Z * Z)) :=
  match n with
  | O => []
  | S n' =>
      match _calculate_window_position a with
      | (r, a') => r :: positions n' a'
      end
  end.

(** ** The application and what it owns *)

(** The teardown methods [quit] calls, as it calls them. *)
Inductive teardown : Type :=
| StopHotkey                 (* hotkey_listener.stop() *)
| StopTray                   (* system_tray.stop() *)
| CloseWindow (id : nat)     (* window.close() *)
| HideInput                  (* input_window.hide() *)
| QuitRoot                   (* root.quit() *)
| DestroyRoot.               (* root.destroy() *)

(** Which calls into the tray library and the toolkit raise. *)
Record Faults : Type := mkFaults {
  icon_stop_raises : bool;
  window_destroy_raises : nat -> bool;    (* by window identity *)
  input_destroy_raises : bool;
  root_quit_raises : bool;
  root_destroy_raises : bool
}.

Record world : Type := mkWorld {
  app : t;
  keyboard : Keyboard.t;
  faults : Faults;
  calls : list teardown;     (* oldest first *)
  next_ident : nat           (* the identity of the next object created *)
}.

Definition on_app {A} (m : M t A) : M world A := fun w =>
  match m (app w) with
  | (r, a) => (r, mkWorld a (keyboard w) (faults w) (calls w) (next_ident w))
  end.

Definition update (f : t -> t) : M world unit := on_app (modify f).

Definition called (c : teardown) : M world unit :=
  modify (fun w => mkWorld (app w) (keyboard w) (faults w) (calls w ++ [c])
                           (next_ident w)).

(** A call into a library that raises when [fails] says so. *)
Definition library_call (fails : Faults -> bool) : M world unit :=
  f <- gets faults ;;
  if fails f then raise LibraryError else ret tt.

Definition fresh_ident : M world nat := fun w =>
  (Returned (next_ident w),
   mkWorld (app w) (keyboard w) (faults w) (calls w) (S (next_ident w))).

(** [window in self.floating_windows]: objects compare by identity. *)
Definition member (id : nat) (l : list FloatingWindow.t) : bool :=
  existsb (fun o => Nat.eqb (FloatingWindow.ident o) id) l.

(** [list.remove]: the first occurrence goes. *)
Fixpoint remove (id : nat) (l : list FloatingWindow.t) : list FloatingWindow.t :=
  match l with
  | [] => []
  | o :: rest =>
      if Nat.eqb (FloatingWindow.ident o) id then rest
      else o :: remove id rest
  end.

(** [remove_floating_window] *)
Definition remove_floating_window (id : nat) : M world unit :=
  try_except
    (a <- gets app ;;
     if member id (floating_windows a)
     then update (set_floating_windows (remove id (floating_windows a)))
     else ret tt)
    (fun _ => ret tt).

(** [create_floating_window].  The opacity read from the settings only
    reaches the toolkit and is left out. *)
Definition create_floating_window (text : str) : M world unit :=
  try_except
    (id <- fresh_ident ;;
     let floating_window := FloatingWindow.init id text in
     p <- on_app _calculate_window_position ;;
     let floating_window := FloatingWindow.show (fst p) (snd p) floating_window in
     update (fun a =>
               set_floating_windows (floating_windows a ++ [floating_window]) a))
    (fun _ => ret tt).

(** [FloatingWindow.close], with [Application.remove_floating_window] as
    its [on_close].  The object closed is the one the list holds under
    that identity. *)
Definition mark_closed (id : nat) (a : t) : t :=
  set_floating_windows
    (map (fun o => if Nat.eqb (FloatingWindow.ident o) id
                   then FloatingWindow.set_closed true o else o)
         (floating_windows a)) a.

Definition close (window : FloatingWindow.t) : M world unit :=
  let id := FloatingWindow.ident window in
  called (CloseWindow id) ;;
  if negb (FloatingWindow.closed window) then
    library_call (fun f => window_destroy_raises f id) ;;
    update (mark_closed id) ;;
    remove_floating_window id
  else ret tt.

(** The input prompt of the application: its callback creates a window. *)
Definition prompt (w : world) : InputWindow.t :=
  match input_window (app w) with
  | Some i => i
  | None => InputWindow.mk None None
  end.

Definition set_prompt (i : InputWindow.t) (w : world) : world :=
  mkWorld (set_input_window (Some i) (app w)) (keyboard w) (faults w)
          (calls w) (next_ident w).

Definition screen (w : world) : Z * Z :=
  match root (app w) with
  | Some r => (winfo_screenwidth r, winfo_screenheight r)
  | None => (0, 0)
  end.

Definition input_hide : M world unit :=
  InputWindow.hide prompt set_prompt (library_call input_destroy_raises).

Definition input_on_submit : M world unit :=
  InputWindow._on_submit prompt set_prompt create_floating_window
                         (library_call input_destroy_raises).

(** [_show_input_window_impl] *)
Definition _show_input_window_impl : M world unit :=
  try_except
    (a <- gets app ;;
     (match input_window a with
      | None => update (set_input_window (Some (InputWindow.mk None None)))
      | Some _ => ret tt
      end) ;;
     InputWindow.show prompt set_prompt screen)
    (fun _ => ret tt).

(** [HotkeyListener.stop] on the application's listener. *)
Definition listener_stop (l : HotkeyListener.t) : M world unit := fun w =>
  match HotkeyListener.stop (l, keyboard w) with
  | (r, (l', kb)) =>
      (r, mkWorld (set_hotkey_listener (Some l') (app w)) kb (faults w)
                  (calls w) (next_ident w))
  end.

(** [SystemTray.stop] on the application's tray. *)
Definition tray_stop (s : SystemTray.t) : M world unit :=
  match SystemTray.icon s with
  | Some _ =>
      library_call icon_stop_raises ;;
      update (set_system_tray (Some (SystemTray.mk (Some false))))
  | None => ret tt
  end.

Definition root_quit : M world unit :=
  library_call root_quit_raises ;;
  update (fun a =>
    match root a with
    | Some r => set_root (Some (mkRoot (winfo_screenwidth r)
                                       (winfo_screenheight r) true
                                       (destroyed r))) a
    | None => a
    end).

Definition root_destroy : M world unit :=
  library_call root_destroy_raises ;;
  update (fun a =>
    match root a with
    | Some r => set_root (Some (mkRoot (winfo_screenwidth r)
                                       (winfo_screenheight r)
                                       (mainloop_left r) true)) a
    | None => a
    end).

(** [quit] *)
Definition quit : M world unit :=
  try_except
    (a <- gets app ;;
     (match hotkey_listener a with
      | Some l => called StopHotkey ;; listener_stop l
      | None => ret tt
      end) ;;
     (match system_tray a with
      | Some s => called StopTray ;; tray_stop s
      | None => ret tt
      end) ;;
     windows <- gets (fun w => floating_windows (app w)) ;;
     for_each windows (fun window => try_pass (close window)) ;;
     (match input_window a with
      | Some _ => try_pass (called HideInput ;; input_hide)
      | None => ret tt
      end) ;;
     (match root a with
      | Some _ =>
          called QuitRoot ;; root_quit ;;
          called DestroyRoot ;; root_destroy
      | None => ret tt
      end))
    (fun _ => ret tt).

End Application.

(* ================================================================== *)
(** * config.py: [ConfigManager] *)
(* ================================================================== *)

(** What [json.load] returns and [json.dump] takes.  A dict is the list of
    its items in insertion order; its keys are distinct. *)
Module Json.
Import PyStr.

Unset Elimination Schemes.
Inductive value : Type :=
| Null
| Bool (b : bool)
| Int (n : Z)
| Float (q : Q)
| Str (s : str)
| Array (items : list value)
| Object (members : list (str * value)).
Set Elimination Schemes.

(** [d[k]] when [k in d] *)
Fixpoint lookup (k : str) (members : list (str * value)) : option value :=
  match members with
  | [] => None
  | (k', v) :: rest => if PyStr.eqb k k' then Some v else lookup k rest
  end.

End Json.

Module ConfigManager.
Import PyStr Json.

(** The exceptions of this module, by class. *)
Inductive error : Type :=
| JSONDecodeError       (* json.load on text that is not JSON *)
| IOError               (* open() refused *)
| UnicodeDecodeError.   (* the file is not UTF-8 text *)

Inductive result (A : Type) : Type :=
| Ok (a : A)
| Error (e : error).
Arguments Ok {A} a.
Arguments Error {A} e.

(** What the settings file holds. *)
Inductive content : Type :=
| Json (v : value)      (* JSON text; [v] is what it parses to *)
| Malformed             (* text that is not JSON *)
| Undecodable.          (* bytes that are not UTF-8 *)

(** The place of [config.json] on the disk. *)
Record Disk : Type := mkDisk {
  file : option content;     (* [None]: there is no such file *)
  readable : bool;           (* open(path, 'r') goes through *)
  writable : bool            (* open(path, 'w') goes through *)
}.

Record t : Type := mk {
  config : value
}.

Definition dot : char := 46%N.

(** [DEFAULT_CONFIG] *)
Definition DEFAULT_CONFIG : value :=
  Object
    [(of_string "hotkey", Str (of_string "ctrl+shift+t"));
     (of_string "window_opacity", Float (9 # 10));
     (of_string "default_position",
      Object [(of_string "x", Int 100); (of_string "y", Int 100)]);
     (of_string "font",
      Object [(of_string "family", Str (of_string "Arial"));
              (of_string "size", Int 12)])].

(** [load] *)
Definition load (d : Disk) : result value :=
  match file d with
  | None => Error IOError
  | Some c =>
      if negb (readable d) then Error IOError
      else match c with
           | Json v => Ok v
           | Malformed => Error JSONDecodeError
           | Undecodable => Error UnicodeDecodeError
           end
  end.

(** [save]: on success the file holds the dumped value and [self.config]
    is the value saved. *)
Definition save (config : value) (d : Disk) : result t * Disk :=
  if writable d
  then (Ok (mk config), mkDisk (Some (Json config)) (readable d) (writable d))
  else (Error IOError, d).

(** [_load_or_create_config] *)
Definition _load_or_create_config (d : Disk) : result value * Disk :=
  match file d with
  | Some _ =>                      (* os.path.exists(self.config_path) *)
      match load d with
      | Ok v => (Ok v, d)
      | Error JSONDecodeError | Error IOError => (Ok DEFAULT_CONFIG, d)
      | Error e => (Error e, d)
      end
  | None =>
      match save DEFAULT_CONFIG d with
      | (Ok _, d') => (Ok DEFAULT_CONFIG, d')
      | (Error e, d') => (Error e, d')
      end
  end.

(** [__init__] *)
Definition init (d : Disk) : result t * Disk :=
  match _load_or_create_config d with
  | (Ok v, d') => (Ok (mk v), d')
  | (Error e, d') => (Error e, d')
  end.

(** The loop of [get]: down one key at a time; the first key that is not
    there, or that is looked up in something that is not a dict, ends it
    with the default. *)
Fixpoint descend (keys : list str) (value default : Json.value) : Json.value :=
  match keys with
  | [] => value
  | k :: rest =>
      match value with
      | Object members =>
          match lookup k members with
          | Some v => descend rest v default
          | None => default
          end
      | _ => default
      end
  end.

(** [get] *)
Definition get (key : str) (default : value) (self : t) : value :=
  let keys := split dot key in
  descend keys (config self) default.

End ConfigManager.

(* ================================================================== *)
(** * Observing a callback *)
(* ================================================================== *)

(** An owner of an input prompt, with a list beside its state in which
    every text handed to [on_submit] is written down. *)
Module Recording.
Import Py PyStr.

Section Owner.
Context {W : Type}.
Variable get_self : W -> InputWindow.t.
Variable set_self : InputWindow.t -> W -> W.
Variable on_submit : str -> M W unit.
Variable destroy : M W unit.

Definition lift {A} (m : M W A) : M (W * list str) A := fun ws =>
  match m (fst ws) with (r, w) => (r, (w, snd ws)) end.

Definition on_submit_recorded (text : str) : M (W * list str) unit :=
  fun ws =>
    match on_submit text (fst ws) with
    | (r, w) => (r, (w, snd ws ++ [text]))
    end.

(** [_on_submit] of the prompt, recording. *)
Definition submit : M (W * list str) unit :=
  InputWindow._on_submit
    (fun ws => get_self (fst ws))
    (fun i ws => (set_self i (fst ws), snd ws))
    on_submit_recorded
    (lift destroy).

(** The texts [on_submit] receives when the prompt is submitted in
    state [w]. *)
Definition submitted (w : W) : list str := snd (snd (submit (w, []))).

End Owner.

End Recording.

(* ================================================================== *)
(** * Sample objects, on which the properties below are exercised *)
(* ================================================================== *)

Module Samples.
Import PyStr.

(** A keyboard on which only ["ctrl+shift+t"] can be registered. *)
Definition keyboard : Keyboard.t :=
  Keyboard.mk (fun _ h => PyStr.eqb h HotkeyListener.default_hotkey)
              (fun _ => true) [] [].

(** A listener configured with ["ctrl+alt+x"]. *)
Definition listener : HotkeyListener.t :=
  HotkeyListener.mk (of_string "ctrl+alt+x") false.

(** A fresh label, as [create_floating_window] leaves it at (100, 100). *)
Definition label : FloatingWindow.t :=
  FloatingWindow.show 100 100 (FloatingWindow.init 0 (of_string "note")).

(** The same label in edit mode. *)
Definition label_editing : FloatingWindow.t :=
  FloatingWindow._enter_edit_mode label.

(** A 1920x1080 screen and a 640x300 one. *)
Definition root : Application.Root := Application.mkRoot 1920 1080 false false.
Definition small_root : Application.Root :=
  Application.mkRoot 640 300 false false.

(** The application as [run] leaves it before the event loop starts. *)
Definition app (r : Application.Root) : Application.t :=
  Application.mk (Some r)
                 (Some (HotkeyListener.mk HotkeyListener.default_hotkey true))
                 (Some (SystemTray.mk (Some true)))
                 None [] 0 60.

Definition no_faults : Application.Faults :=
  Application.mkFaults false (fun _ => false) false false false.

Definition registered_keyboard : Keyboard.t :=
  Keyboard.mk (fun _ _ => true) (fun _ => true)
              [HotkeyListener.default_hotkey] [HotkeyListener.default_hotkey].

Definition world (f : Application.Faults) : Application.world :=
  Application.mkWorld (app root) registered_keyboard f [] 0.

(** The prompt open with [content] typed into it. *)
Definition typing (content : str) (w : Application.world) : Application.world :=
  Application.set_prompt
    (InputWindow.mk (Some (Tk.mkToplevel 735 450 450 180 1 [])) (Some content))
    w.

(** The application with two labels on screen and the prompt open. *)
Definition busy_world (f : Application.Faults) : Application.world :=
  snd (Application.create_floating_window (of_string "second")
         (snd (Application.create_floating_window (of_string "first")
                 (typing (of_string "draft") (world f))))).

(** The tray icon's [stop] raises. *)
Definition tray_fault : Application.Faults :=
  Application.mkFaults true (fun _ => false) false false false.

(** Destroying the first label raises. *)
Definition window_fault : Application.Faults :=
  Application.mkFaults false (Nat.eqb 0) false false false.

End Samples.

(* ================================================================== *)
(** * Vocabulary of the properties *)
(* ================================================================== *)

Module Gesture.
Import FloatingWindow.

(** The four pointer events the editing guard covers: primary-button
    motion and the secondary button's press, motion and release. *)
Definition guarded (ev : event) : bool :=
  match ev with
  | B1Motion _ | Button3 _ | B3Motion _ | ButtonRelease3 _ => true
  | _ => false
  end.

(** What may come between two presses of a click sequence without
    breaking it: a release of the primary button, or a motion of it that
    stays within 5 pixels of the press at [anchor] in both axes. *)
Definition quiet (anchor : Tk.Event) (ev : event) : bool :=
  match ev with
  | ButtonRelease1 _ => true
  | B1Motion e =>
      ((Z.abs (Tk.x_root e - Tk.x_root anchor) <=? 5)
       && (Z.abs (Tk.y_root e - Tk.y_root anchor) <=? 5))%bool
  | _ => false
  end.

(** The number of times edit mode was entered: each entry selects the
    whole text once, and nothing else does. *)
Definition edit_entries (s : t) : nat :=
  Tk.select_all_requests (text_widget s).

(** The count a press at time [now] arrives at, as [_on_left_click]
    computes it before it compares it with 3. *)
Definition counted (now : Q) (s : t) : Z :=
  if Qltb (now - _last_click_time s) (1 # 2) then _click_count s + 1 else 1.

(** For each font size from 11 to 32, the least area that reaches it. *)
Definition size_steps : list (Z * Z) :=
  [(11, 28680); (12, 38330); (13, 50051); (14, 64076); (15, 80644);
   (16, 100000); (17, 122395); (18, 148085); (19, 177329); (20, 210395);
   (21, 247551); (22, 289074); (23, 335243); (24, 386342); (25, 442657);
   (26, 504481); (27, 572110); (28, 645843); (29, 725984); (30, 812839);
   (31, 906719); (32, 1007937)].

(** [16 * (area / 100000) ^ 0.3] compared with [n], through the tenth
    powers: [16^10 * area^3] against [n^10 * 100000^3], the latter scaled
    by [num / 2^24]. *)
Definition above (num n area : Z) : bool :=
  n ^ 10 * 100000 ^ 3 * num <=? 16 ^ 10 * area ^ 3 * 2 ^ 24.
Definition below (num n area : Z) : bool :=
  16 ^ 10 * area ^ 3 * 2 ^ 24 <=? n ^ 10 * 100000 ^ 3 * num.

(** The area [_update_font_size] reads. *)
Definition area (s : t) : Z :=
  Tk.winfo_width (window s) * Tk.winfo_height (window s).

End Gesture.

(* ================================================================== *)
(** * Vocabulary of the further properties *)
(* ================================================================== *)

Module Reach.
Import PyStr FloatingWindow.

(** A label as [create_floating_window] puts it on screen at [x], [y]. *)
Definition fresh (id : nat) (text : str) (x y : Z) : FloatingWindow.t :=
  show x y (init id text).

(** What every handler keeps true of a label. *)
Definition steady (s : FloatingWindow.t) : Prop :=
  0 <= _click_count s <= 2 /\
  Tk.keys_bound (text_widget s) = _is_editing s /\
  Tk.text_state (text_widget s)
  = (if _is_editing s then Tk.normal else Tk.disabled) /\
  200 <= Tk.winfo_width (window s) /\
  100 <= Tk.winfo_height (window s) /\
  _base_font_size s = 16 /\
  Tk.font_size (text_widget s)
  = Z.max 10
      (Z.min (scaled 16 (Tk.winfo_width (window s) * Tk.winfo_height (window s))
                     (500 * 200)) 32).

(** The pointer positions of a motion, as events of one button. *)
Definition primary_motions (points : list Tk.Event) : list event :=
  map B1Motion points.
Definition secondary_motions (points : list Tk.Event) : list event :=
  map B3Motion points.

(** The last of [points] that lies beyond the threshold from [anchor]. *)
Fixpoint last_beyond (anchor : Tk.Event) (points : list Tk.Event)
  : option Tk.Event :=
  match points with
  | [] => None
  | e :: rest =>
      match last_beyond anchor rest with
      | Some e' => Some e'
      | None =>
          if beyond_threshold (Tk.x_root e - Tk.x_root anchor)
                              (Tk.y_root e - Tk.y_root anchor)
          then Some e else None
      end
  end.

(** Secondary clicks that do not move: a press and a release at each of
    [points]. *)
Definition secondary_clicks (points : list Tk.Event) : list event :=
  flat_map (fun p => [Button3 p; ButtonRelease3 p]) points.

End Reach.

(** What the user and the callers do to a running application. *)
Module Session.
Import Py PyStr Application.

(** The identities of the labels the application tracks. *)
Definition idents (w : world) : list nat :=
  map FloatingWindow.ident (floating_windows (app w)).

(** The user types [content] into the open prompt. *)
Definition type_text (content : str) (w : world) : world :=
  set_prompt (InputWindow.mk (InputWindow.window (prompt w)) (Some content)) w.


(** The same world under other faults of the toolkit. *)
Definition with_faults (f : Faults) (w : world) : world :=
  mkWorld (app w) (keyboard w) f (calls w) (next_ident w).

(** The tracking list holds each label once, every label in it is open,
    and no identity in it is one still to be given out. *)
Definition tracked_well (w : world) : Prop :=
  NoDup (idents w) /\
  Forall (fun o => FloatingWindow.closed o = false
                   /\ (FloatingWindow.ident o < next_ident w)%nat)
         (floating_windows (app w)).

(** Whether [quit] gets past the tray: [system_tray.stop()] raises when
    there is an icon and its [stop] raises. *)
Definition tray_stop_raises (w : world) : bool :=
  match system_tray (app w) with
  | Some s =>
      match SystemTray.icon s with
      | Some _ => icon_stop_raises (faults w)
      | None => false
      end
  | None => false
  end.

(** A computation that leaves the tracking list, the faults and the next
    identity alone. *)
Definition keeps_tracking {A} (m : M world A) : Prop :=
  forall w : world,
    floating_windows (app (snd (m w))) = floating_windows (app w) /\
    faults (snd (m w)) = faults w /\
    next_ident (snd (m w)) = next_ident w.

(** The labels [quit] cannot close: their [destroy] raises. *)
Definition stuck (f : Faults) (l : list FloatingWindow.t)
  : list FloatingWindow.t :=
  filter (fun o => window_destroy_raises f (FloatingWindow.ident o)) l.

(** The calls into the application that change what it tracks. *)
Inductive request : Type :=
| Create (text : str)               (* create_floating_window(text) *)
| Confirm (id : nat)                (* the confirm button of a label's popup *)
| Remove (id : nat)                 (* remove_floating_window(window) *)
| Hotkey                            (* the hotkey: _show_input_window_impl *)
| Typed (content : str)             (* the user edits the prompt's line *)
| Enter                             (* <Return> in the prompt *)
| Escape                            (* <Escape> in the prompt *)
| Quit.                             (* quit() *)

(** The label the list holds under [id]. *)
Definition find (id : nat) (w : world) : option FloatingWindow.t :=
  List.find (fun o => Nat.eqb (FloatingWindow.ident o) id)
            (floating_windows (app w)).

Definition prompt_open (w : world) : bool :=
  match InputWindow.window (prompt w) with Some _ => true | None => false end.

(** [InputWindow._on_cancel] on the application's prompt. *)
Definition input_on_cancel : M world unit :=
  InputWindow._on_cancel prompt set_prompt (library_call input_destroy_raises).


(** One request.  The toolkit's event loop reports an exception that
    leaves a callback and goes on. *)
Definition serve (q : request) (w : world) : world :=
  match q with
  | Create text => snd (create_floating_window text w)
  | Confirm id =>
      match find id w with
      | Some o => snd (close o w)
      | None => w
      end
  | Remove id => snd (remove_floating_window id w)
  | Hotkey => snd (_show_input_window_impl w)
  | Typed content => if prompt_open w then type_text content w else w
  | Enter => if prompt_open w then snd (input_on_submit w) else w
  | Escape => if prompt_open w then snd (input_on_cancel w) else w
  | Quit => snd (quit w)
  end.

Definition serve_all (qs : list request) (w : world) : world :=
  fold_left (fun w q => serve q w) qs w.

End Session.

(* ================================================================== *)
(** * Properties *)
(* ================================================================== *)

(** ** Strings *)

Section StringFacts.
Import PyStr.

Lemma eqb_eq (a b : str) : PyStr.eqb a b = true <-> a = b.
Proof.
  revert b; induction a as [|x a IH]; intros [|y b]; simpl;
    try (split; [discriminate | discriminate]); try tauto.
  rewrite andb_true_iff, N.eqb_eq, IH.
  split; [intros [-> ->]; reflexivity | intros E; inversion E; auto].
Qed.

Lemma eqb_neq (a b : str) : PyStr.eqb a b = false <-> a <> b.
Proof.
  rewrite <- eqb_eq. destruct (PyStr.eqb a b); split; congruence.
Qed.

Lemma lstrip_nil (s : str) : lstrip s = [] <-> blank s.
Proof.
  unfold blank; induction s as [|c s IH]; simpl.
  - split; auto.
  - destruct (isspace c) eqn:E.
    + rewrite IH; split; [auto | intros H; inversion H; auto].
    + split; [discriminate | intros H; inversion H; congruence].
Qed.

Lemma lstrip_head (s : str) :
  lstrip s = [] \/ exists c rest, lstrip s = c :: rest /\ isspace c = false.
Proof.
  induction s as [|c s IH]; simpl; auto.
  destruct (isspace c) eqn:E; eauto.
Qed.

Lemma blank_rev (s : str) : blank (rev s) <-> blank s.
Proof.
  unfold blank; rewrite !Forall_forall.
  split; intros H x Hx; apply H.
  - apply in_rev in Hx; exact Hx.
  - apply in_rev; exact Hx.
Qed.

Lemma rev_nil_iff {A} (l : list A) : rev l = [] <-> l = [].
Proof.
  split; intros H; [| subst; reflexivity].
  apply (f_equal (@rev A)) in H. rewrite rev_involutive in H. exact H.
Qed.

(** [s.strip()] is empty exactly when [s] is empty or all white space. *)
Lemma strip_nil (s : str) : strip s = [] <-> blank s.
Proof.
  unfold strip, rstrip.
  destruct (lstrip_head s) as [E | (c & rest & E & Hc)].
  - rewrite E; simpl. apply lstrip_nil in E. tauto.
  - split; intros H.
    + apply (proj1 (rev_nil_iff _)) in H. apply (proj1 (lstrip_nil _)) in H.
      apply (proj1 (blank_rev _)) in H.
      rewrite E in H. inversion H; congruence.
    + apply lstrip_nil in H. congruence.
Qed.

Lemma lstrip_keeps_end (l : str) (c : char) :
  isspace c = false -> exists l', lstrip (l ++ [c]) = l' ++ [c].
Proof.
  intros Hc. induction l as [|x l IH]; simpl.
  - rewrite Hc. exists []. reflexivity.
  - destruct (isspace x); [exact IH |].
    exists (x :: l). reflexivity.
Qed.

(** A stripped text that is not empty starts with a character that is
    not white space. *)
Lemma strip_head (s : str) :
  strip s = [] \/ exists c rest, strip s = c :: rest /\ isspace c = false.
Proof.
  unfold strip, rstrip.
  destruct (lstrip_head s) as [E | (c & rest & E & Hc)].
  - left. rewrite E. reflexivity.
  - right. rewrite E. simpl rev.
    destruct (lstrip_keeps_end (rev rest) c Hc) as (l' & El).
    rewrite El, rev_app_distr. simpl. eauto.
Qed.

Lemma truthy_false (s : str) : truthy s = false <-> s = [].
Proof. destruct s; simpl; split; congruence. Qed.

End StringFacts.

(** ** The hotkey listener *)

Section HotkeyListenerFacts.
Import Py PyStr HotkeyListener.

(* counting the registrations logged *)
Ltac start_count := rewrite ?length_app; simpl; lia.

(* running the listener's code on its symbolic world *)
Ltac start_eval :=
  cbn -[_validate_hotkey default_hotkey PyStr.eqb app List.length].

Lemma default_hotkey_valid : _validate_hotkey default_hotkey = true.
Proof. reflexivity. Qed.

(** C9.  [start] on a listener that is not running.  When the
    configured combination registers, that is the only registration.
    When it does not (it fails validation, or [add_hotkey] raises) and it
    is not ["ctrl+shift+t"], exactly one more registration is made, of
    ["ctrl+shift+t"], and [start] raises exactly when that one fails too.
    When the configured combination is ["ctrl+shift+t"] itself, nothing
    more is registered and the failure is raised.  No run makes more than
    one registration after the first. *)
Theorem start_retries_once_with_default :
  forall (l : HotkeyListener.t) (kb : Keyboard.t),
    is_running l = false ->
    let h := hotkey l in
    let first_try := if _validate_hotkey h then [h] else [] in
    let first_ok :=
      (_validate_hotkey h && Keyboard.accepts kb (Keyboard.attempts kb) h)%bool in
    let second_ok :=
      Keyboard.accepts kb (Keyboard.attempts kb ++ first_try) default_hotkey in
    let r := fst (start (l, kb)) in
    let l' := fst (snd (start (l, kb))) in
    let tried := Keyboard.attempts (snd (snd (start (l, kb)))) in
    (first_ok = true ->
       r = Returned tt /\ l' = mk h true /\
       tried = Keyboard.attempts kb ++ [h])
    /\ (first_ok = false -> h <> default_hotkey ->
          tried = Keyboard.attempts kb ++ first_try ++ [default_hotkey] /\
          hotkey l' = default_hotkey /\
          (second_ok = true -> r = Returned tt /\ is_running l' = true) /\
          (second_ok = false ->
             r = Raised (FallbackFailed LibraryError) /\ is_running l' = false))
    /\ (first_ok = false -> h = default_hotkey ->
          tried = Keyboard.attempts kb ++ [default_hotkey] /\
          l' = l /\
          r = Raised (RegistrationFailed LibraryError))
    /\ (List.length tried <= List.length (Keyboard.attempts kb) + 2)%nat.
Proof.
  intros [h run] kb Hrun; simpl in Hrun; subst run.
  cbv zeta. cbn [hotkey].
  assert (Hdef : PyStr.eqb h default_hotkey = true -> h = default_hotkey)
    by apply eqb_eq.
  assert (Hndef : PyStr.eqb h default_hotkey = false -> h <> default_hotkey)
    by apply eqb_neq.
  unfold start, self, set_self, keyboard, Keyboard.add_hotkey,
    try_except, bind, gets, modify, raise, ret.
  start_eval.
  destruct (_validate_hotkey h) eqn:Hv;
    [destruct (Keyboard.accepts kb (Keyboard.attempts kb) h) eqn:Ha |];
    start_eval; rewrite ?Ha; start_eval.
  - (* the configured combination registers *)
    repeat split; try congruence; start_count.
  - (* add_hotkey raised *)
    destruct (PyStr.eqb h default_hotkey) eqn:He; start_eval.
    + specialize (Hdef eq_refl).
      repeat split; try congruence; start_count.
    + specialize (Hndef eq_refl).
      destruct (Keyboard.accepts kb (Keyboard.attempts kb ++ [h]) default_hotkey)
        eqn:Hs;
        start_eval; rewrite <- ?app_assoc;
        repeat split; try congruence; start_count.
  - (* validation failed: no registration of the configured combination *)
    destruct (PyStr.eqb h default_hotkey) eqn:He; start_eval.
    + specialize (Hdef eq_refl). subst h. discriminate Hv.
    + specialize (Hndef eq_refl).
      rewrite ?app_nil_r.
      destruct (Keyboard.accepts kb (Keyboard.attempts kb) default_hotkey)
        eqn:Hs;
        start_eval;
        repeat split; try congruence; start_count.
Qed.

Lemma start_retries_once_with_default_witness :
  is_running Samples.listener = false /\
  fst (start (Samples.listener, Samples.keyboard)) = Returned tt /\
  Keyboard.attempts (snd (snd (start (Samples.listener, Samples.keyboard))))
  = [of_string "ctrl+alt+x"; default_hotkey].
Proof.
  split; [reflexivity |].
  pose proof (start_retries_once_with_default
                Samples.listener Samples.keyboard eq_refl) as H.
  cbv zeta in H.
  destruct H as (_ & H & _ & _).
  assert (Hne : hotkey Samples.listener <> default_hotkey) by discriminate.
  destruct (H eq_refl Hne) as (Ht & _ & Hok & _).
  split; [exact (proj1 (Hok eq_refl)) | exact Ht].
Defined.

End HotkeyListenerFacts.

(** ** The floating window: thresholds, resizing, the editing guard *)

Section GestureFacts.
Import Py FloatingWindow Gesture.

Lemma within_not_beyond (dx dy : Z) :
  Z.abs dx <= 5 -> Z.abs dy <= 5 -> beyond_threshold dx dy = false.
Proof.
  intros Hx Hy. unfold beyond_threshold.
  apply orb_false_iff; split; apply Z.ltb_ge; assumption.
Qed.

(** C6.  A motion event of either button that lies within 5 pixels of
    the recorded anchor in both axes, the bound included, changes
    nothing: the handler returns the window as it was, so its position
    and size stay. *)
Theorem motion_within_threshold_is_ignored :
  forall (s : FloatingWindow.t) (e : Tk.Event),
    (Z.abs (Tk.x_root e - _drag_start_x s) <= 5 ->
     Z.abs (Tk.y_root e - _drag_start_y s) <= 5 ->
     _on_left_drag e s = s /\
     placement (_on_left_drag e s) = placement s)
    /\
    (Z.abs (Tk.x_root e - _resize_start_x s) <= 5 ->
     Z.abs (Tk.y_root e - _resize_start_y s) <= 5 ->
     _on_right_drag e s = (Returned tt, s) /\
     placement (snd (_on_right_drag e s)) = placement s).
Proof.
  intros s e; split; intros Hx Hy.
  - assert (E : _on_left_drag e s = s).
    { unfold _on_left_drag. rewrite (within_not_beyond _ _ Hx Hy).
      destruct (_is_editing s); reflexivity. }
    rewrite E; auto.
  - assert (E : _on_right_drag e s = (Returned tt, s)).
    { unfold _on_right_drag. rewrite (within_not_beyond _ _ Hx Hy).
      destruct (_is_editing s); reflexivity. }
    rewrite E; auto.
Qed.

Lemma motion_within_threshold_is_ignored_witness :
  let e := Tk.mkEvent 5 (-5) in
  Z.abs (Tk.x_root e - _drag_start_x Samples.label) <= 5 /\
  Z.abs (Tk.y_root e - _resize_start_y Samples.label) <= 5 /\
  placement (_on_left_drag e Samples.label) = (100, 100, 500, 200) /\
  placement (snd (_on_right_drag e Samples.label)) = (100, 100, 500, 200).
Proof.
  intro e.
  assert (Hx : Z.abs (Tk.x_root e - 0) <= 5) by (vm_compute; discriminate).
  assert (Hy : Z.abs (Tk.y_root e - 0) <= 5) by (vm_compute; discriminate).
  destruct (motion_within_threshold_is_ignored Samples.label e) as [Hl Hr].
  destruct (Hl Hx Hy) as [_ Hl']. destruct (Hr Hx Hy) as [_ Hr'].
  split; [exact Hx |].
  split; [exact Hy |].
  split; [rewrite Hl' | rewrite Hr']; reflexivity.
Defined.

(** One pixel further and the window follows the pointer. *)
Example motion_beyond_threshold_moves :
  placement (_on_left_drag (Tk.mkEvent 6 0) Samples.label) = (106, 100, 500, 200)
  /\ placement (snd (_on_right_drag (Tk.mkEvent 0 6) Samples.label))
     = (100, 100, 200, 100).
Proof. split; reflexivity. Qed.

Lemma font_size_for_nonneg (base w h : Z) :
  0 <= w * h ->
  font_size_for base w h
  = Returned (Z.max 10 (Z.min (scaled base (w * h) (500 * 200)) 32)).
Proof.
  intros H. unfold font_size_for.
  destruct (Z.ltb_spec (w * h) 0); [lia | reflexivity].
Qed.

(** C7.  Whenever the secondary-button motion handler resizes (the
    window is not being edited and the pointer is beyond the threshold),
    the size it sets is [max(start + delta, minimum)] in each direction:
    at least 200 wide and 100 high, whatever the delta.  The handler
    returns normally and leaves the position as it was. *)
Theorem resize_keeps_minimum_size :
  forall (s : FloatingWindow.t) (e : Tk.Event),
    _is_editing s = false ->
    beyond_threshold (Tk.x_root e - _resize_start_x s)
                     (Tk.y_root e - _resize_start_y s) = true ->
    let s' := snd (_on_right_drag e s) in
    fst (_on_right_drag e s) = Returned tt /\
    Tk.winfo_width (window s')
    = Z.max (_resize_start_width s + (Tk.x_root e - _resize_start_x s)) 200 /\
    Tk.winfo_height (window s')
    = Z.max (_resize_start_height s + (Tk.y_root e - _resize_start_y s)) 100 /\
    200 <= Tk.winfo_width (window s') /\
    100 <= Tk.winfo_height (window s') /\
    Tk.winfo_x (window s') = Tk.winfo_x (window s) /\
    Tk.winfo_y (window s') = Tk.winfo_y (window s).
Proof.
  intros s e Hed Hb. cbv zeta.
  unfold _on_right_drag. rewrite Hed, Hb. cbn [negb].
  unfold bind, modify, _update_font_size.
  cbn [window set_window Tk.geometry Tk.winfo_width Tk.winfo_height
       _base_font_size].
  rewrite font_size_for_nonneg by nia.
  cbn. repeat split; lia.
Qed.

Lemma resize_keeps_minimum_size_witness :
  let e := Tk.mkEvent (-4000) (-3000) in
  let s := _on_right_click (Tk.mkEvent 300 250) Samples.label in
  _is_editing s = false /\
  placement (snd (_on_right_drag e s)) = (100, 100, 200, 100).
Proof.
  intros e s. split; [reflexivity |].
  destruct (resize_keeps_minimum_size s e eq_refl eq_refl)
    as (_ & Hw & Hh & _ & _ & Hx & Hy).
  unfold placement. rewrite Hw, Hh, Hx, Hy. reflexivity.
Defined.

(** C10.  While the window is being edited, the primary-button motion
    handler and the three secondary-button handlers return the window
    unchanged: no move, no resize, no resize anchor recorded, no
    confirmation popup.  The same holds for any sequence of these four
    events, since none of them leaves edit mode. *)
Theorem editing_disables_pointer_gestures :
  forall (s : FloatingWindow.t),
    _is_editing s = true ->
    (forall e : Tk.Event,
        _on_left_drag e s = s /\
        _on_right_click e s = s /\
        _on_right_drag e s = (Returned tt, s) /\
        _on_right_release e s = s)
    /\
    (forall evs : list event,
        forallb guarded evs = true ->
        run evs s = s /\
        placement (run evs s) = placement s /\
        confirmations (run evs s) = confirmations s).
Proof.
  intros s Hed.
  assert (Hone : forall e : Tk.Event,
             _on_left_drag e s = s /\ _on_right_click e s = s /\
             _on_right_drag e s = (Returned tt, s) /\
             _on_right_release e s = s).
  { intros e.
    unfold _on_left_drag, _on_right_click, _on_right_drag, _on_right_release.
    rewrite Hed. repeat split. }
  split; [exact Hone |].
  intros evs Hg.
  assert (E : run evs s = s).
  { unfold run. induction evs as [|ev evs IH]; [reflexivity |].
    simpl in Hg. apply andb_true_iff in Hg. destruct Hg as [Hev Hrest].
    simpl.
    assert (Hd : dispatch ev s = s).
    { destruct (Hone (match ev with
                      | B1Motion e | Button3 e | B3Motion e
                      | ButtonRelease3 e => e
                      | _ => Tk.mkEvent 0 0
                      end)) as (H1 & H2 & H3 & H4).
      destruct ev; try discriminate Hev; simpl;
        rewrite ?H1, ?H2, ?H3, ?H4; reflexivity. }
    rewrite Hd. apply IH; assumption. }
  rewrite E; auto.
Qed.

Lemma editing_disables_pointer_gestures_witness :
  _is_editing Samples.label_editing = true /\
  run [Button3 (Tk.mkEvent 10 10); B3Motion (Tk.mkEvent 90 90);
       ButtonRelease3 (Tk.mkEvent 10 10); B1Motion (Tk.mkEvent 400 400)]
      Samples.label_editing
  = Samples.label_editing.
Proof.
  split; [reflexivity |].
  destruct (editing_disables_pointer_gestures Samples.label_editing eq_refl)
    as [_ H].
  exact (proj1 (H [Button3 (Tk.mkEvent 10 10); B3Motion (Tk.mkEvent 90 90);
                   ButtonRelease3 (Tk.mkEvent 10 10);
                   B1Motion (Tk.mkEvent 400 400)] eq_refl)).
Defined.

(** The guard matters: the same events on the window outside edit mode
    resize it and move it. *)
Example same_gestures_when_not_editing :
  placement
    (run [Button3 (Tk.mkEvent 10 10); B3Motion (Tk.mkEvent 90 90);
          B1Motion (Tk.mkEvent 400 400)] Samples.label)
  = (500, 500, 580, 280).
Proof. reflexivity. Qed.

(** C2, at the input where it fails.  The secondary button is pressed
    at (300, 250), dragged to (360, 310), which resizes the window from
    500x200 to 560x260, and released back at (300, 250): the release
    handler compares the release point alone with the anchor and opens
    the delete confirmation, although the threshold was exceeded and a
    resize took place. *)
Theorem release_near_anchor_confirms_after_resize :
  let press := Button3 (Tk.mkEvent 300 250) in
  let drag := B3Motion (Tk.mkEvent 360 310) in
  let release := ButtonRelease3 (Tk.mkEvent 300 250) in
  let resized := run [press; drag] Samples.label in
  let final := run [press; drag; release] Samples.label in
  _is_editing Samples.label = false /\
  beyond_threshold (360 - 300) (310 - 250) = true /\
  placement Samples.label = (100, 100, 500, 200) /\
  placement resized = (100, 100, 560, 260) /\
  confirmations resized = 0%nat /\
  confirmations final = 1%nat.
Proof. cbv zeta. repeat split; reflexivity. Qed.

(** What the release handler does decide on: the release point only. *)
Lemma right_release_confirms_iff (s : FloatingWindow.t) (e : Tk.Event) :
  _is_editing s = false ->
  confirmations (_on_right_release e s)
  = if beyond_threshold (Tk.x_root e - _resize_start_x s)
                        (Tk.y_root e - _resize_start_y s)
    then confirmations s else S (confirmations s).
Proof.
  intros Hed. unfold _on_right_release, beyond_threshold. rewrite Hed.
  cbn [negb].
  destruct (Z.leb_spec (Z.abs (Tk.x_root e - _resize_start_x s)) 5);
    destruct (Z.leb_spec (Z.abs (Tk.y_root e - _resize_start_y s)) 5);
    destruct (Z.ltb_spec 5 (Z.abs (Tk.x_root e - _resize_start_x s)));
    destruct (Z.ltb_spec 5 (Z.abs (Tk.y_root e - _resize_start_y s)));
    try lia; cbn [andb orb]; try reflexivity.
  unfold confirmations, _confirm_delete. cbn.
  rewrite length_app. simpl. lia.
Qed.

End GestureFacts.

(** ** The floating window: the triple click *)

Section TripleClickFacts.
Import Py FloatingWindow Gesture.

Lemma Qltb_true (a b : Q) : (a < b)%Q -> Qltb a b = true.
Proof.
  intros H. unfold Qltb. destruct (Qle_bool b a) eqn:E; [| reflexivity].
  apply Qle_bool_iff in E. exfalso. exact (Qlt_not_le _ _ H E).
Qed.

Lemma Qltb_false (a b : Q) : ~ (a < b)%Q -> Qltb a b = false.
Proof.
  intros H. unfold Qltb. destruct (Qle_bool b a) eqn:E; [reflexivity |].
  exfalso. apply H. apply Qnot_le_lt. intros Hle.
  apply Qle_bool_iff in Hle. congruence.
Qed.

(** A press that does not complete a triple click, outside edit mode:
    the count and the time are recorded and the press becomes the drag
    anchor. *)
Lemma left_click_counts (now : Q) (e : Tk.Event) (s : FloatingWindow.t) :
  _is_editing s = false ->
  counted now s < 3 ->
  let s' := _on_left_click now e s in
  _is_editing s' = false /\
  _click_count s' = counted now s /\
  _last_click_time s' = now /\
  _drag_start_x s' = Tk.x_root e /\
  _drag_start_y s' = Tk.y_root e /\
  edit_entries s' = edit_entries s /\
  placement s' = placement s.
Proof.
  intros Hed Hc. unfold counted in Hc. cbv zeta.
  unfold _on_left_click, counted.
  destruct (Qltb (now - _last_click_time s) (1 # 2));
    cbn [set_click_count set_last_click_time _click_count _is_editing];
    (destruct (Z.leb_spec 3 (_click_count s + 1)) ||
     destruct (Z.leb_spec 3 1)); try lia;
    rewrite Hed; cbn; repeat split; assumption.
Qed.

(** The press that completes the triple click enters edit mode and
    clears the count. *)
Lemma left_click_triggers (now : Q) (e : Tk.Event) (s : FloatingWindow.t) :
  3 <= counted now s ->
  let s' := _on_left_click now e s in
  _is_editing s' = true /\
  _click_count s' = 0 /\
  _last_click_time s' = now /\
  edit_entries s' = S (edit_entries s) /\
  placement s' = placement s.
Proof.
  intros Hc. unfold counted in Hc. cbv zeta.
  unfold _on_left_click.
  destruct (Qltb (now - _last_click_time s) (1 # 2));
    cbn [set_click_count set_last_click_time _click_count _is_editing];
    (destruct (Z.leb_spec 3 (_click_count s + 1)) ||
     destruct (Z.leb_spec 3 1)); try lia;
    cbn; repeat split.
Qed.

(** A press in edit mode that does not complete a triple click only
    counts. *)
Lemma left_click_while_editing (now : Q) (e : Tk.Event) (s : FloatingWindow.t) :
  _is_editing s = true ->
  counted now s < 3 ->
  let s' := _on_left_click now e s in
  _is_editing s' = true /\
  _click_count s' = counted now s /\
  edit_entries s' = edit_entries s /\
  placement s' = placement s.
Proof.
  intros Hed Hc. unfold counted in Hc. cbv zeta.
  unfold _on_left_click, counted.
  destruct (Qltb (now - _last_click_time s) (1 # 2));
    cbn [set_click_count set_last_click_time _click_count _is_editing];
    (destruct (Z.leb_spec 3 (_click_count s + 1)) ||
     destruct (Z.leb_spec 3 1)); try lia;
    rewrite Hed; cbn; repeat split; assumption.
Qed.

(** Quiet events keep a click sequence alive: the count, the time of
    the last press and the anchor stay, and so does the window. *)
Lemma quiet_events_keep_sequence (anchor : Tk.Event) (ms : list event) :
  forall s : FloatingWindow.t,
    _is_editing s = false ->
    _drag_start_x s = Tk.x_root anchor ->
    _drag_start_y s = Tk.y_root anchor ->
    forallb (quiet anchor) ms = true ->
    let s' := run ms s in
    _is_editing s' = false /\
    _click_count s' = _click_count s /\
    _last_click_time s' = _last_click_time s /\
    edit_entries s' = edit_entries s /\
    placement s' = placement s.
Proof.
  induction ms as [|ev ms IH]; intros s Hed Hx Hy Hq; cbv zeta.
  - repeat split; assumption.
  - simpl in Hq. apply andb_true_iff in Hq. destruct Hq as [Hev Hms].
    change (run (ev :: ms) s) with (run ms (dispatch ev s)).
    destruct ev as [now e | e | e | e | e | e | |]; try discriminate Hev.
    + (* a motion within the threshold *)
      simpl in Hev. apply andb_true_iff in Hev. destruct Hev as [Ha Hb].
      apply Z.leb_le in Ha, Hb.
      assert (E : dispatch (B1Motion e) s = s).
      { simpl. unfold _on_left_drag.
        rewrite Hx, Hy, (within_not_beyond _ _ Ha Hb).
        destruct (_is_editing s); reflexivity. }
      rewrite E. apply IH; assumption.
    + (* a release *)
      assert (E : dispatch (ButtonRelease1 e) s
                  = set_text_widget
                      (Tk.config_cursor Tk.cursor_default (text_widget s)) s).
      { simpl. unfold _on_left_release. rewrite Hed. reflexivity. }
      rewrite E.
      exact (IH (set_text_widget
                   (Tk.config_cursor Tk.cursor_default (text_widget s)) s)
                Hed Hx Hy Hms).
Qed.

Lemma run_app (evs1 evs2 : list event) (s : FloatingWindow.t) :
  run (evs1 ++ evs2) s = run evs2 (run evs1 s).
Proof. unfold run. apply fold_left_app. Qed.

(** C4, amended.  Three presses of the primary button on a window
    outside edit mode, the first one starting a click sequence (the count
    is 0, or the press before it is 500 ms or more in the past), each
    later one less than 500 ms after the one before, with only quiet
    events in between (releases, motions within 5 pixels of the last
    press).  The third press enters edit mode, once, and leaves the count
    at 0; a fourth press, whenever it comes, counts 1 and does not enter
    edit mode again. *)
Theorem triple_click_enters_edit_mode_once :
  forall (s : FloatingWindow.t) (t1 t2 t3 : Q) (e1 e2 e3 : Tk.Event)
         (ms1 ms2 : list event),
    _is_editing s = false ->
    (_click_count s = 0 \/ ~ (t1 - _last_click_time s < 1 # 2)%Q) ->
    (t2 - t1 < 1 # 2)%Q ->
    (t3 - t2 < 1 # 2)%Q ->
    forallb (quiet e1) ms1 = true ->
    forallb (quiet e2) ms2 = true ->
    let before_third :=
      run ([Button1 t1 e1] ++ ms1 ++ [Button1 t2 e2] ++ ms2) s in
    let s3 := dispatch (Button1 t3 e3) before_third in
    _is_editing before_third = false /\
    _click_count before_third = 2 /\
    _is_editing s3 = true /\
    _click_count s3 = 0 /\
    edit_entries s3 = S (edit_entries s) /\
    placement s3 = placement s /\
    (forall (t4 : Q) (e4 : Tk.Event),
        let s4 := dispatch (Button1 t4 e4) s3 in
        _is_editing s4 = true /\
        _click_count s4 = 1 /\
        edit_entries s4 = edit_entries s3 /\
        placement s4 = placement s3).
Proof.
  intros s t1 t2 t3 e1 e2 e3 ms1 ms2 Hed Hfresh H12 H23 Hq1 Hq2.
  cbv zeta.
  (* the first press counts 1 *)
  assert (Hc1 : counted t1 s = 1).
  { unfold counted. destruct Hfresh as [H0 | Hgap].
    - rewrite H0. destruct (Qltb _ _); reflexivity.
    - rewrite (Qltb_false _ _ Hgap). reflexivity. }
  destruct (left_click_counts t1 e1 s Hed ltac:(lia))
    as (Hed1 & Hn1 & Hl1 & Hx1 & Hy1 & He1 & Hp1).
  set (s1 := _on_left_click t1 e1 s) in *.
  destruct (quiet_events_keep_sequence e1 ms1 s1 Hed1 Hx1 Hy1 Hq1)
    as (Hed1' & Hn1' & Hl1' & He1' & Hp1').
  set (s1' := run ms1 s1) in *.
  (* the second press counts 2 *)
  assert (Hc2 : counted t2 s1' = 2).
  { unfold counted. rewrite Hl1', Hl1, (Qltb_true _ _ H12). lia. }
  destruct (left_click_counts t2 e2 s1' Hed1' ltac:(lia))
    as (Hed2 & Hn2 & Hl2 & Hx2 & Hy2 & He2 & Hp2).
  set (s2 := _on_left_click t2 e2 s1') in *.
  destruct (quiet_events_keep_sequence e2 ms2 s2 Hed2 Hx2 Hy2 Hq2)
    as (Hed2' & Hn2' & Hl2' & He2' & Hp2').
  set (s2' := run ms2 s2) in *.
  assert (Erun : run ([Button1 t1 e1] ++ ms1 ++ [Button1 t2 e2] ++ ms2) s = s2').
  { rewrite !run_app. reflexivity. }
  rewrite Erun.
  (* the third press counts 3 *)
  assert (Hc3 : counted t3 s2' = 3).
  { unfold counted. rewrite Hl2', Hl2, (Qltb_true _ _ H23). lia. }
  destruct (left_click_triggers t3 e3 s2' ltac:(lia))
    as (Hed3 & Hn3 & Hl3 & He3 & Hp3).
  change (dispatch (Button1 t3 e3) s2') with (_on_left_click t3 e3 s2').
  set (s3 := _on_left_click t3 e3 s2') in *.
  split; [exact Hed2' |].
  split; [lia |].
  split; [exact Hed3 |].
  split; [exact Hn3 |].
  split; [congruence |].
  split; [congruence |].
  (* a fourth press counts 1 *)
  intros t4 e4.
  assert (Hc4 : counted t4 s3 = 1).
  { unfold counted. rewrite Hn3. destruct (Qltb _ _); reflexivity. }
  destruct (left_click_while_editing t4 e4 s3 Hed3 ltac:(lia))
    as (Hed4 & Hn4 & He4 & Hp4).
  change (dispatch (Button1 t4 e4) s3) with (_on_left_click t4 e4 s3).
  repeat split; try assumption. lia.
Qed.

Lemma triple_click_enters_edit_mode_once_witness :
  let e := Tk.mkEvent 300 250 in
  let evs := [Button1 (1000 # 1) e; ButtonRelease1 e;
              B1Motion (Tk.mkEvent 303 248);
              Button1 (10002 # 10) e; ButtonRelease1 e] in
  _is_editing Samples.label = false /\
  _click_count (run evs Samples.label) = 2 /\
  _is_editing (dispatch (Button1 (10004 # 10) e) (run evs Samples.label)) = true /\
  _click_count (dispatch (Button1 (10004 # 10) e) (run evs Samples.label)) = 0.
Proof.
  intros e evs.
  split; [reflexivity |].
  assert (H12 : ((10002 # 10) - (1000 # 1) < 1 # 2)%Q) by reflexivity.
  assert (H23 : ((10004 # 10) - (10002 # 10) < 1 # 2)%Q) by reflexivity.
  destruct (triple_click_enters_edit_mode_once
              Samples.label (1000 # 1) (10002 # 10) (10004 # 10) e e e
              [ButtonRelease1 e; B1Motion (Tk.mkEvent 303 248)]
              [ButtonRelease1 e]
              eq_refl (or_introl eq_refl) H12 H23 eq_refl eq_refl)
    as (_ & Hn & Hed & Hc & _).
  split; [exact Hn |]. split; [exact Hed | exact Hc].
Defined.

(** C4 as stated, for every window outside edit mode, fails on a window
    that is already counting.  After two presses 100 ms apart the window
    is outside edit mode with a count of 2.  Three more presses, each
    100 ms after the one before and with no motion in between, enter edit
    mode at the first of them and leave the count at 2, not 0; and a
    fourth press 100 ms later enters edit mode a second time. *)
Lemma triple_click_on_a_counting_window :
  let e := Tk.mkEvent 300 250 in
  let s := run [Button1 (1000 # 1) e; Button1 (10001 # 10) e] Samples.label in
  let t1 := 10002 # 10 in
  let t2 := 10003 # 10 in
  let t3 := 10004 # 10 in
  let t4 := 10005 # 10 in
  let s3 := run [Button1 t1 e; Button1 t2 e; Button1 t3 e] s in
  let s4 := dispatch (Button1 t4 e) s3 in
  (_is_editing s = false /\ _click_count s = 2) /\
  ((t1 - _last_click_time s < 1 # 2)%Q /\
   (t2 - t1 < 1 # 2)%Q /\ (t3 - t2 < 1 # 2)%Q /\ (t4 - t3 < 1 # 2)%Q) /\
  _is_editing s3 = true /\
  _click_count s3 = 2 /\
  _click_count s3 <> 0 /\
  edit_entries s3 = 1%nat /\
  edit_entries s4 = 2%nat /\
  edit_entries s4 <> edit_entries s3.
Proof.
  cbv zeta.
  repeat split; try reflexivity; vm_compute; discriminate.
Qed.

End TripleClickFacts.

(** ** The floating window: font scaling *)

Section FontFacts.
Import Py FloatingWindow Gesture.

Lemma pow10_double (r : Z) : (2 * r) ^ 10 = 1024 * r ^ 10.
Proof. rewrite Z.pow_mul_l. reflexivity. Qed.

(** [root10_bits] finds the integer tenth root when it is given enough
    bits. *)
Lemma root10_bits_spec (bits : nat) :
  forall x : Z,
    0 <= x < 2 ^ Z.of_nat bits ->
    0 <= root10_bits bits x /\
    root10_bits bits x ^ 10 <= x < (root10_bits bits x + 1) ^ 10.
Proof.
  induction bits as [|bits IH]; intros x Hx.
  - change (2 ^ Z.of_nat 0) with 1 in Hx. cbn [root10_bits].
    change (0 ^ 10) with 0. change ((0 + 1) ^ 10) with 1. lia.
  - cbn [root10_bits]. cbv zeta.
    destruct (Z.ltb_spec x 1) as [Hlt | Hge].
    + change (0 ^ 10) with 0. change ((0 + 1) ^ 10) with 1. lia.
    + assert (Hq : 0 <= x / 1024 < 2 ^ Z.of_nat bits).
      { rewrite Nat2Z.inj_succ, Z.pow_succ_r in Hx by lia.
        remember (2 ^ Z.of_nat bits) as p eqn:Ep. clear Ep.
        split; [apply Z.div_pos; lia |].
        apply Z.div_lt_upper_bound; lia. }
      destruct (IH _ Hq) as (Hr0 & Hlo & Hhi).
      remember (root10_bits bits (x / 1024)) as r eqn:Er. clear Er IH Hq Hx.
      assert (Hdown : 1024 * (x / 1024) <= x)
        by (apply Z.mul_div_le; lia).
      assert (Hup : x < 1024 * (x / 1024 + 1)).
      { pose proof (Z.mul_succ_div_gt x 1024 ltac:(lia)). lia. }
      assert (Etop : (2 * r + 1 + 1) ^ 10 = 1024 * (r + 1) ^ 10).
      { replace (2 * r + 1 + 1) with (2 * (r + 1)) by lia.
        apply pow10_double. }
      assert (Ebot : (2 * r) ^ 10 = 1024 * r ^ 10) by apply pow10_double.
      remember (x / 1024) as q eqn:Eq. clear Eq.
      destruct (Z.leb_spec ((2 * r + 1) ^ 10) x) as [Hle | Hgt];
        rewrite ?Etop, ?Ebot; clear Etop Ebot;
        remember ((2 * r + 1) ^ 10) as mid eqn:E1; clear E1;
        remember ((r + 1) ^ 10) as hi eqn:E2; clear E2;
        remember (r ^ 10) as lo eqn:E3; clear E3;
        lia.
Qed.

Lemma root10_spec (x : Z) :
  0 <= x -> 0 <= root10 x /\ root10 x ^ 10 <= x < (root10 x + 1) ^ 10.
Proof.
  intros Hx. unfold root10. apply root10_bits_spec.
  split; [exact Hx |].
  rewrite Nat2Z.inj_succ, Z2Nat.id by apply Z.log2_nonneg.
  destruct (Z.eq_dec x 0) as [-> | Hne].
  - reflexivity.
  - apply Z.log2_spec. lia.
Qed.

Lemma root10_monotone (x y : Z) : 0 <= x <= y -> root10 x <= root10 y.
Proof.
  intros [Hx Hxy].
  destruct (root10_spec x Hx) as (Hrx & Hlo & _).
  destruct (root10_spec y ltac:(lia)) as (Hry & _ & Hhi).
  destruct (Z_le_gt_dec (root10 x) (root10 y)) as [H | H]; [exact H |].
  exfalso.
  assert (Hp : (root10 y + 1) ^ 10 <= root10 x ^ 10)
    by (apply Z.pow_le_mono_l; lia).
  lia.
Qed.

Lemma scaled_monotone (base a a' : Z) :
  0 <= base -> 0 <= a <= a' ->
  scaled base a (500 * 200) <= scaled base a' (500 * 200).
Proof.
  intros Hb [Ha Haa]. unfold scaled. apply root10_monotone.
  assert (H3 : a ^ 3 <= a' ^ 3) by (apply Z.pow_le_mono_l; lia).
  assert (H0 : 0 <= a ^ 3) by (apply Z.pow_nonneg; lia).
  assert (Hb10 : 0 <= base ^ 10) by (apply Z.pow_nonneg; lia).
  split.
  - apply Z.div_pos; [| reflexivity]. apply Z.mul_nonneg_nonneg; assumption.
  - apply Z.div_le_mono; [reflexivity |].
    apply Z.mul_le_mono_nonneg_l; assumption.
Qed.

(** C5.  [_update_font_size] on a window of non-negative area returns
    normally and sets a font size between 10 and 32; and of two windows
    (base size 16, base area 500x200, the power 0.3 taken exactly), the
    one with the larger area gets a font size at least as large. *)
Theorem font_size_bounded_and_monotone :
  forall (s s' : FloatingWindow.t),
    _base_font_size s = 16 ->
    _base_font_size s' = 16 ->
    0 <= area s ->
    area s <= area s' ->
    let f := Tk.font_size (text_widget (snd (_update_font_size s))) in
    let f' := Tk.font_size (text_widget (snd (_update_font_size s'))) in
    fst (_update_font_size s) = Returned tt /\
    fst (_update_font_size s') = Returned tt /\
    10 <= f <= 32 /\
    10 <= f' <= 32 /\
    f <= f'.
Proof.
  intros s s' Hb Hb' H0 Hle. unfold area in *. cbv zeta.
  unfold _update_font_size.
  rewrite Hb, Hb', !font_size_for_nonneg by lia.
  cbn [fst snd text_widget set_text_widget Tk.font_size Tk.config_font].
  pose proof (scaled_monotone 16 _ _ ltac:(lia) (conj H0 Hle)) as Hm.
  repeat split; lia.
Qed.

Lemma font_size_bounded_and_monotone_witness :
  let small := set_window (Tk.mkToplevel 0 0 200 100 1 []) Samples.label in
  let large := set_window (Tk.mkToplevel 0 0 1900 1000 1 []) Samples.label in
  0 <= area small /\ area small <= area large /\
  Tk.font_size (text_widget (snd (_update_font_size small))) = 10 /\
  Tk.font_size (text_widget (snd (_update_font_size Samples.label))) = 16 /\
  Tk.font_size (text_widget (snd (_update_font_size large))) = 32.
Proof.
  intros small large.
  assert (H0 : 0 <= area small) by (vm_compute; discriminate).
  assert (H1 : area small <= area large) by (vm_compute; discriminate).
  pose proof (font_size_bounded_and_monotone small large
                eq_refl eq_refl H0 H1) as H.
  cbv zeta in H. destruct H as (_ & _ & _ & _ & Hmono).
  split; [exact H0 |]. split; [exact H1 |].
  split; [| split]; vm_compute; reflexivity.
Defined.

(** Where the font size changes.  At the least area that reaches [n] the
    unclamped size is [n], and one pixel of area less gives [n - 1].  At
    both areas the tenth power of [16 * (area / 100000) ^ 0.3] is off the
    tenth power of [n] by more than one part in [2^24], except at the
    base area, where the value is 16 exactly: the last bits of a computed
    power do not decide any font size. *)
Example sizes_change_clear_of_rounding :
  forallb (fun step =>
             let n := fst step in
             let a := snd step in
             (scaled 16 a (500 * 200) =? n)
             && (scaled 16 (a - 1) (500 * 200) =? n - 1)
             && (above (2 ^ 24 + 1) n a || ((n =? 16) && (a =? 100000)))
             && below (2 ^ 24 - 1) n (a - 1))%bool
          size_steps
  = true.
Proof. vm_compute. reflexivity. Qed.

(** The unclamped value at some areas: 16 at the base area, and the
    bounds 10 and 32 are both reached. *)
Example scaled_values :
  map (fun a => scaled 16 a (500 * 200))
      [0; 20000; 100000; 137500; 1000000; 1008000; 1900000]
  = [0; 9; 16; 17; 31; 32; 38].
Proof. vm_compute. reflexivity. Qed.

End FontFacts.

(** ** The application: where new windows go *)

Section PlacementFacts.
Import Py Application.

(** The number of windows one column holds on a screen of height [h]:
    the positions [20 + 60 * j] that leave 100 pixels for the window and
    20 for the margin. *)
Lemma column_capacity (h : Z) :
  exists k : Z,
    0 <= k /\
    (forall j, 0 <= j < k -> 20 + 60 * j + 100 <= h - 20) /\
    h - 20 < 20 + 60 * k + 100.
Proof.
  destruct (Z_lt_le_dec h 140) as [Hs | Hl].
  - exists 0. repeat split; lia.
  - exists ((h - 140) / 60 + 1).
    pose proof (Z.div_pos (h - 140) 60 ltac:(lia) ltac:(lia)) as Hq.
    pose proof (Z.mul_div_le (h - 140) 60 ltac:(lia)) as Hlo.
    pose proof (Z.mul_succ_div_gt (h - 140) 60 ltac:(lia)) as Hhi.
    repeat split; lia.
Qed.

(** One call, from an offset of [j] steps. *)
Lemma position_step (a : Application.t) (r : Root) (j : Z) :
  root a = Some r ->
  window_offset_step a = 60 ->
  window_offset a = 60 * j ->
  let x := winfo_screenwidth r - 250 - 20 in
  _calculate_window_position a
  = if winfo_screenheight r - 20 <? 20 + 60 * j + 100
    then (Returned (x, 20), set_window_offset 0 a)
    else (Returned (x, 20 + 60 * j), set_window_offset (60 * (j + 1)) a).
Proof.
  intros Hr Hs Ho. cbv zeta. unfold _calculate_window_position.
  rewrite Hr, Hs, Ho.
  replace (60 * j + 60) with (60 * (j + 1)) by lia.
  destruct (Z.ltb_spec (winfo_screenheight r - 20) (20 + 60 * j + 100));
    reflexivity.
Qed.

Lemma next_phase (i k : Z) :
  0 <= k -> (k + (i + 1)) mod (k + 1) = i mod (k + 1).
Proof.
  intros Hk. replace (k + (i + 1)) with (i + 1 * (k + 1)) by lia.
  apply Z_mod_plus_full.
Qed.

(** The positions returned from an offset of [j0] steps within the
    column: they go down the column from there and start again at the
    top after the wrap. *)
Lemma positions_from (r : Root) (k : Z) :
  0 <= k ->
  (forall j, 0 <= j < k -> 20 + 60 * j + 100 <= winfo_screenheight r - 20) ->
  winfo_screenheight r - 20 < 20 + 60 * k + 100 ->
  forall (n : nat) (a : Application.t) (j0 : Z) (i : nat),
    root a = Some r ->
    window_offset_step a = 60 ->
    window_offset a = 60 * j0 ->
    0 <= j0 <= k ->
    (i < n)%nat ->
    nth_error (positions n a) i
    = Some (Returned
              (winfo_screenwidth r - 250 - 20,
               let j := (j0 + Z.of_nat i) mod (k + 1) in
               if j <? k then 20 + 60 * j else 20)).
Proof.
  intros Hk Hfit Hoff.
  induction n as [|n IH]; intros a j0 i Hr Hs Ho Hj Hi; [lia |].
  cbn [positions].
  rewrite (position_step a r j0 Hr Hs Ho). cbv zeta.
  destruct (Z.ltb_spec (winfo_screenheight r - 20) (20 + 60 * j0 + 100))
    as [Hwrap | Hfits].
  - (* this window would run off: j0 is the capacity *)
    assert (j0 = k).
    { destruct (Z.eq_dec j0 k) as [E | N]; [exact E |].
      specialize (Hfit j0 ltac:(lia)). lia. }
    subst j0.
    destruct i as [|i]; cbn [nth_error].
    + rewrite Z.add_0_r, Z.mod_small by lia.
      rewrite Z.ltb_irrefl. reflexivity.
    + rewrite (IH (set_window_offset 0 a) 0 i Hr Hs eq_refl ltac:(lia) ltac:(lia)).
      cbv zeta. rewrite Nat2Z.inj_succ.
      replace (k + Z.succ (Z.of_nat i)) with (k + (Z.of_nat i + 1)) by lia.
      rewrite (next_phase _ k Hk). rewrite Z.add_0_l. reflexivity.
  - (* this window fits: j0 is below the capacity *)
    assert (j0 < k) by nia.
    destruct i as [|i]; cbn [nth_error].
    + rewrite Z.add_0_r, Z.mod_small by lia.
      destruct (Z.ltb_spec j0 k); [reflexivity | lia].
    + rewrite (IH (set_window_offset (60 * (j0 + 1)) a) (j0 + 1) i
                  Hr Hs eq_refl ltac:(lia) ltac:(lia)).
      cbv zeta. rewrite Nat2Z.inj_succ.
      replace (j0 + 1 + Z.of_nat i) with (j0 + Z.succ (Z.of_nat i)) by lia.
      reflexivity.
Qed.

(** C1.  [n] calls in a row on an application that has not placed a
    window yet.  With [k] the number of windows one column holds, the
    calls return, at x = screen width - 270, the Y coordinates
    20, 80, ..., 20 + 60 (k - 1), each 60 below the one before and each
    leaving room for the window; the next call, whose window would run
    off the bottom, returns 20; and the calls after it repeat the same
    pattern from 20. *)
Theorem window_positions_stack_and_wrap :
  forall (a : Application.t) (r : Root) (n : nat),
    root a = Some r ->
    window_offset a = 0 ->
    window_offset_step a = 60 ->
    exists k : Z,
      0 <= k /\
      (forall j, 0 <= j < k -> 20 + 60 * j + 100 <= winfo_screenheight r - 20) /\
      winfo_screenheight r - 20 < 20 + 60 * k + 100 /\
      forall i : nat,
        (i < n)%nat ->
        let j := Z.of_nat i mod (k + 1) in
        nth_error (positions n a) i
        = Some (Returned (winfo_screenwidth r - 250 - 20,
                          if j <? k then 20 + 60 * j else 20)).
Proof.
  intros a r n Hr Ho Hs.
  destruct (column_capacity (winfo_screenheight r)) as (k & Hk & Hfit & Hoff).
  exists k. repeat split; try assumption.
  intros i Hi.
  exact (positions_from r k Hk Hfit Hoff n a 0 i Hr Hs Ho ltac:(lia) Hi).
Qed.

Lemma window_positions_stack_and_wrap_witness :
  let a := Samples.app Samples.small_root in
  root a = Some Samples.small_root /\
  window_offset a = 0 /\
  window_offset_step a = 60 /\
  positions 7 a
  = map Returned [(370, 20); (370, 80); (370, 140); (370, 20);
                  (370, 20); (370, 80); (370, 140)] /\
  exists k : Z,
    0 <= k /\
    forall i : nat,
      (i < 7)%nat ->
      nth_error (positions 7 a) i
      = Some (Returned
                (370, if Z.of_nat i mod (k + 1) <? k
                      then 20 + 60 * (Z.of_nat i mod (k + 1)) else 20)).
Proof.
  intro a.
  split; [reflexivity |]. split; [reflexivity |]. split; [reflexivity |].
  split; [reflexivity |].
  destruct (window_positions_stack_and_wrap a Samples.small_root 7
              eq_refl eq_refl eq_refl) as (k & Hk & _ & _ & Hpos).
  exists k. split; [exact Hk |]. exact Hpos.
Defined.

End PlacementFacts.

(** ** The input prompt *)

Section PromptFacts.
Import Py PyStr InputWindow.

(** What [_on_submit] does, by the text typed. *)
Lemma on_submit_cases {W : Type}
      (get_self : W -> InputWindow.t) (set_self : InputWindow.t -> W -> W)
      (on_submit : str -> M W unit) (destroy : M W unit)
      (w : W) (content : str) :
  entry (get_self w) = Some content ->
  _on_submit get_self set_self on_submit destroy w
  = if truthy (strip content)
    then bind (on_submit (strip content))
              (fun _ => hide get_self set_self destroy) w
    else (Returned tt, w).
Proof.
  intros He. unfold _on_submit, bind at 1, gets. rewrite He.
  destruct (truthy (strip content)); reflexivity.
Qed.

Lemma blank_not_truthy (content : str) :
  blank content <-> truthy (strip content) = false.
Proof. rewrite truthy_false. symmetry. apply strip_nil. Qed.

(** C8.  Submitting the prompt when the text typed is empty or all
    white space.  In the application nothing at all happens: the
    creation callback is not run, the list of floating windows and the
    rest of the world are as before, and the prompt stays open.  For
    any owner of a prompt, the texts [on_submit] receives are none when
    the typed text is blank, and otherwise the one stripped text, which
    is not empty. *)
Theorem blank_submission_is_ignored :
  forall (content : str),
    (forall w : Application.world,
        entry (Application.prompt w) = Some content ->
        blank content ->
        Application.input_on_submit w = (Returned tt, w) /\
        Application.floating_windows (Application.app (snd (Application.input_on_submit w)))
        = Application.floating_windows (Application.app w))
    /\
    (forall (W : Type) (get_self : W -> InputWindow.t)
            (set_self : InputWindow.t -> W -> W)
            (on_submit : str -> M W unit) (destroy : M W unit) (w : W),
        entry (get_self w) = Some content ->
        let received :=
          Recording.submitted get_self set_self on_submit destroy w in
        (blank content -> received = []) /\
        (~ blank content -> received = [strip content]) /\
        (forall text, In text received ->
                      text = strip content /\ text <> [] /\ ~ blank text)).
Proof.
  intros content. split.
  - intros w He Hb.
    assert (E : Application.input_on_submit w = (Returned tt, w)).
    { unfold Application.input_on_submit.
      rewrite (on_submit_cases _ _ _ _ w content He).
      rewrite (proj1 (blank_not_truthy content) Hb). reflexivity. }
    rewrite E. split; reflexivity.
  - intros W get_self set_self on_submit destroy w He. cbv zeta.
    unfold Recording.submitted, Recording.submit.
    rewrite (on_submit_cases _ _ _ _ (w, []) content He).
    destruct (truthy (strip content)) eqn:Et.
    + (* the stripped text is not empty: it is handed over, once *)
      assert (Hnb : ~ blank content).
      { intros Hb. apply blank_not_truthy in Hb. congruence. }
      assert (Hne : strip content <> []).
      { intros E. rewrite E in Et. discriminate Et. }
      assert (Hlog :
                snd (snd (bind (Recording.on_submit_recorded on_submit (strip content))
                               (fun _ => hide (fun ws => get_self (fst ws))
                                              (fun i ws => (set_self i (fst ws), snd ws))
                                              (Recording.lift destroy))
                               (w, [])))
                = [strip content]).
      { unfold bind at 1, Recording.on_submit_recorded. cbn [fst snd app].
        destruct (on_submit (strip content) w) as [[[] | e] w1];
          [| reflexivity].
        unfold hide, bind, gets, modify, Recording.lift. cbn [fst snd].
        destruct (window (get_self w1)); [| reflexivity].
        cbn [fst snd].
        destruct (destroy w1) as [[[] | e] w2]; reflexivity. }
      rewrite Hlog.
      split; [intros Hb; contradiction |].
      split; [reflexivity |].
      intros text [<- | []].
      split; [reflexivity |]. split; [exact Hne |].
      destruct (strip_head content) as [E | (c & rest & E & Hc)];
        [contradiction |].
      rewrite E. intros Hb. inversion Hb; congruence.
    + cbn [snd].
      split; [reflexivity |].
      split; [intros Hnb; exfalso; apply Hnb; apply blank_not_truthy; exact Et |].
      intros text [].
Qed.

Lemma blank_submission_is_ignored_witness :
  let content := [32; 9; 32]%N in
  let w := Samples.typing content (Samples.world Samples.no_faults) in
  entry (Application.prompt w) = Some content /\
  blank content /\
  Application.input_on_submit w = (Returned tt, w).
Proof.
  intros content w.
  assert (Hb : blank content) by (repeat constructor).
  split; [reflexivity |]. split; [exact Hb |].
  destruct (blank_submission_is_ignored content) as [H _].
  exact (proj1 (H w eq_refl Hb)).
Defined.

(** A text with something in it is handed over stripped, and a window
    with that text is created. *)
Example submission_creates_a_window :
  let w := Samples.typing (of_string "  buy milk ")
                          (Samples.world Samples.no_faults) in
  map FloatingWindow.text
      (Application.floating_windows
         (Application.app (snd (Application.input_on_submit w))))
  = [of_string "buy milk"].
Proof. reflexivity. Qed.

End PromptFacts.

(** ** The application: quitting *)

Section QuitFacts.
Import Py Application.

(** The loop over the floating windows does reach every window: a
    [close] that raises is passed over and the next window is closed. *)
Lemma close_is_guarded (x : FloatingWindow.t) (w : world) :
  fst (try_pass (close x) w) = Returned tt /\
  calls (snd (try_pass (close x) w))
  = calls w ++ [CloseWindow (FloatingWindow.ident x)].
Proof.
  unfold try_pass, try_except, close, bind, called, modify, library_call,
    gets, update, on_app, remove_floating_window, raise, ret.
  unfold try_except, bind, gets, update, on_app, modify, ret.
  destruct (FloatingWindow.closed x); cbn -[member]; [auto |].
  destruct (window_destroy_raises (faults w) (FloatingWindow.ident x));
    cbn -[member]; [auto |].
  match goal with
  | |- context [member ?i ?l] => destruct (member i l)
  end; cbn; auto.
Qed.

Lemma every_window_is_closed (windows : list FloatingWindow.t) :
  forall w : world,
    fst (for_each windows (fun x => try_pass (close x)) w) = Returned tt /\
    calls (snd (for_each windows (fun x => try_pass (close x)) w))
    = calls w ++ map (fun x => CloseWindow (FloatingWindow.ident x)) windows.
Proof.
  induction windows as [|x windows IH]; intros w; cbn [for_each map].
  - unfold ret. cbn. rewrite app_nil_r. auto.
  - unfold bind.
    destruct (close_is_guarded x w) as [Hr Hc].
    destruct (try_pass (close x) w) as [r w1]. cbn [fst snd] in Hr, Hc.
    subst r.
    destruct (IH w1) as [Hr' Hc'].
    split; [exact Hr' |].
    rewrite Hc', Hc, <- app_assoc. reflexivity.
Qed.

(** C3, at the input where it fails.  The application has two labels
    on screen and the prompt open, and the tray icon's [stop] raises.
    [quit] swallows the exception and returns, but it has left the
    [try] block: neither label is closed, the prompt is not hidden, and
    the root is neither quit nor destroyed. *)
Theorem quit_abandons_teardown_when_tray_stop_raises :
  let w := Samples.busy_world Samples.tray_fault in
  let w' := snd (quit w) in
  fst (quit w) = Returned tt /\
  calls w' = [StopHotkey; StopTray] /\
  map FloatingWindow.ident (floating_windows (app w)) = [0; 1]%nat /\
  floating_windows (app w') = floating_windows (app w) /\
  input_window (app w') = input_window (app w) /\
  root (app w') = root (app w).
Proof. cbv zeta. repeat split; reflexivity. Qed.

(** The same application when it is the first label whose [destroy]
    raises: that one is guarded, and everything else is torn down. *)
Example quit_passes_over_a_failing_window :
  let w := Samples.busy_world Samples.window_fault in
  let w' := snd (quit w) in
  fst (quit w) = Returned tt /\
  calls w' = [StopHotkey; StopTray; CloseWindow 0; CloseWindow 1;
              HideInput; QuitRoot; DestroyRoot] /\
  map FloatingWindow.ident (floating_windows (app w')) = [0%nat] /\
  input_window (app w') = Some (InputWindow.mk None None) /\
  root (app w') = Some (mkRoot 1920 1080 true true).
Proof. cbv zeta. repeat split; reflexivity. Qed.

(** And with no fault at all. *)
Example quit_tears_everything_down :
  let w := Samples.busy_world Samples.no_faults in
  let w' := snd (quit w) in
  fst (quit w) = Returned tt /\
  calls w' = [StopHotkey; StopTray; CloseWindow 0; CloseWindow 1;
              HideInput; QuitRoot; DestroyRoot] /\
  floating_windows (app w') = [] /\
  Keyboard.registered (keyboard w') = [] /\
  root (app w') = Some (mkRoot 1920 1080 true true).
Proof. cbv zeta. repeat split; reflexivity. Qed.

(** [quit] never raises. *)
Lemma quit_returns (w : world) : fst (quit w) = Returned tt.
Proof.
  unfold quit, try_except.
  destruct (bind _ _ w) as [[[] | e] w']; reflexivity.
Qed.

End QuitFacts.

(** ** The settings *)

Section ConfigFacts.
Import PyStr Json ConfigManager.

Lemma split_not_nil (sep : char) (s : str) : split sep s <> [].
Proof.
  destruct s as [|c s]; simpl; [discriminate |].
  destruct (N.eqb c sep); [discriminate |].
  destruct (split sep s); discriminate.
Qed.

Lemma split_without (sep : char) (s : str) :
  ~ In sep s -> split sep s = [s].
Proof.
  induction s as [|c s IH]; intros Hn; simpl; [reflexivity |].
  destruct (N.eqb_spec c sep) as [E | N].
  - exfalso. apply Hn. left. exact E.
  - rewrite IH; [reflexivity |]. intros Hin. apply Hn. right. exact Hin.
Qed.

Lemma split_at_first (sep : char) (k rest : str) :
  ~ In sep k -> split sep (k ++ sep :: rest) = k :: split sep rest.
Proof.
  induction k as [|c k IH]; intros Hn; simpl.
  - rewrite N.eqb_refl. reflexivity.
  - destruct (N.eqb_spec c sep) as [E | N].
    + exfalso. apply Hn. left. exact E.
    + rewrite IH; [reflexivity |]. intros Hin. apply Hn. right. exact Hin.
Qed.

(** X1.  [get] with a key that has no dot is the plain dict lookup with a
    default, and the value stored is returned whatever it is, [None]
    included.  With a dotted key [k.rest] the first part is looked up and
    [get] goes on with [rest] inside what it finds; a first part that is
    missing ends the lookup with the default. *)
Theorem get_follows_the_dotted_path :
  forall (members : list (str * value)) (k rest : str) (default : value),
    ~ In dot k ->
    get k default (mk (Object members))
    = match lookup k members with
      | Some v => v
      | None => default
      end
    /\
    get (k ++ dot :: rest) default (mk (Object members))
    = match lookup k members with
      | Some v => get rest default (mk v)
      | None => default
      end.
Proof.
  intros members k rest default Hk. unfold get. cbn [config].
  rewrite (split_without dot k Hk), (split_at_first dot k rest Hk).
  cbn [descend].
  destruct (lookup k members); split; reflexivity.
Qed.

Lemma get_follows_the_dotted_path_witness :
  let d := Str (of_string "none") in
  let defaults := mk DEFAULT_CONFIG in
  ~ In dot (of_string "font") /\
  get (of_string "font.size") d defaults = Int 12 /\
  get (of_string "font.weight") d defaults = d /\
  get (of_string "theme.dark") d defaults = d /\
  get (of_string "hotkey") d defaults = Str (of_string "ctrl+shift+t").
Proof.
  intros d defaults.
  assert (Hk : ~ In dot (of_string "font")).
  { intros H. vm_compute in H. intuition discriminate. }
  split; [exact Hk |].
  destruct (get_follows_the_dotted_path
              [(of_string "hotkey", Str (of_string "ctrl+shift+t"));
               (of_string "window_opacity", Float (9 # 10));
               (of_string "default_position",
                Object [(of_string "x", Int 100); (of_string "y", Int 100)]);
               (of_string "font",
                Object [(of_string "family", Str (of_string "Arial"));
                        (of_string "size", Int 12)])]
              (of_string "font") (of_string "size") d Hk) as [_ H].
  split; [exact H |]. repeat split; reflexivity.
Defined.

(** X2.  Whatever is looked up in settings that are not a dict (the file
    held a JSON list, number, string or null), and whatever is looked up
    below a value that is not a dict, comes back as the default. *)
Theorem get_through_a_non_dict_is_the_default :
  forall (v : value) (key : str) (default : value),
    (forall members, v <> Object members) ->
    get key default (mk v) = default
    /\
    (forall (members : list (str * value)) (k : str),
        ~ In dot k ->
        lookup k members = Some v ->
        get (k ++ dot :: key) default (mk (Object members)) = default).
Proof.
  intros v key default Hv.
  assert (Hget : get key default (mk v) = default).
  { unfold get. cbn [config].
    destruct (split dot key) as [|k keys] eqn:E.
    - exfalso. exact (split_not_nil dot key E).
    - cbn [descend]. destruct v; try reflexivity.
      exfalso. exact (Hv _ eq_refl). }
  split; [exact Hget |].
  intros members k Hk Hl.
  unfold get in *. cbn [config] in *.
  rewrite (split_at_first dot k key Hk). cbn [descend].
  rewrite Hl. exact Hget.
Qed.

Lemma get_through_a_non_dict_is_the_default_witness :
  (forall members, Array [Int 1; Int 2] <> Object members) /\
  get (of_string "hotkey") (Str (of_string "ctrl+shift+t"))
      (mk (Array [Int 1; Int 2]))
  = Str (of_string "ctrl+shift+t") /\
  get (of_string "hotkey.key") Null (mk DEFAULT_CONFIG) = Null.
Proof.
  assert (Hv : forall members, Array [Int 1; Int 2] <> Object members)
    by (intros members H; discriminate H).
  split; [exact Hv |].
  split.
  - exact (proj1 (get_through_a_non_dict_is_the_default
                    (Array [Int 1; Int 2]) (of_string "hotkey")
                    (Str (of_string "ctrl+shift+t")) Hv)).
  - reflexivity.
Defined.

(** X3.  Constructing the manager never writes to a settings file that
    exists: a file that cannot be read or is not JSON gives the defaults in
    memory and stays as it is.  With no file, the defaults are written and
    a manager constructed afterwards reads exactly them back; when they
    cannot be written, construction raises and there is still no file. *)
Theorem init_creates_or_leaves_the_file :
  forall d : Disk,
    (file d <> None -> snd (init d) = d)
    /\
    (forall c, file d = Some c ->
               c = Malformed \/ readable d = false ->
               fst (init d) = Ok (mk DEFAULT_CONFIG))
    /\
    (file d = None -> writable d = true ->
     fst (init d) = Ok (mk DEFAULT_CONFIG) /\
     file (snd (init d)) = Some (Json DEFAULT_CONFIG) /\
     (readable d = true ->
      init (snd (init d)) = (Ok (mk DEFAULT_CONFIG), snd (init d))))
    /\
    (file d = None -> writable d = false ->
     init d = (Error IOError, d)).
Proof.
  intros [f r w]. unfold init, _load_or_create_config, load, save.
  cbn [file readable writable].
  repeat split.
  - intros Hf. destruct f as [[v | |] |]; [| | | congruence];
      destruct r; reflexivity.
  - intros c Hf [Hc | Hr].
    + subst c f. destruct r; reflexivity.
    + subst f r. reflexivity.
  - subst f. rewrite H0. reflexivity.
  - subst f. rewrite H0. reflexivity.
  - subst f. rewrite H0. cbn. intros ->. reflexivity.
  - intros Hf Hw. subst f w. reflexivity.
Qed.

Lemma init_creates_or_leaves_the_file_witness :
  let broken := mkDisk (Some Malformed) true true in
  let empty := mkDisk None true true in
  file broken <> None /\
  init broken = (Ok (mk DEFAULT_CONFIG), broken) /\
  init empty
  = (Ok (mk DEFAULT_CONFIG), mkDisk (Some (Json DEFAULT_CONFIG)) true true).
Proof.
  intros broken empty.
  assert (Hf : file broken <> None) by discriminate.
  destruct (init_creates_or_leaves_the_file broken) as (Hsame & Hdef & _).
  split; [exact Hf |].
  split.
  - rewrite (surjective_pairing (init broken)).
    rewrite (Hsame Hf), (Hdef Malformed eq_refl (or_introl eq_refl)).
    reflexivity.
  - reflexivity.
Defined.

(** A file that is not UTF-8 text is not covered by the handler: the
    exception leaves the constructor. *)
Example init_on_undecodable_file :
  init (mkDisk (Some Undecodable) true true)
  = (Error UnicodeDecodeError, mkDisk (Some Undecodable) true true).
Proof. reflexivity. Qed.

End ConfigFacts.

(** ** The hotkey listener: validation, stopping *)

Section ListenerFacts.
Import Py PyStr HotkeyListener.

(** X4.  [_validate_hotkey] accepts exactly the texts that are not blank:
    the check on the pieces between ['+'] signs never rejects anything,
    so ["+++"] and ["foo"] pass and only the empty or all-white-space text
    fails. *)
Theorem validate_hotkey_iff_not_blank :
  forall h : str, _validate_hotkey h = true <-> ~ blank h.
Proof.
  intros h. unfold _validate_hotkey.
  destruct (truthy h) eqn:Et; cbn [negb].
  - destruct (Nat.eqb_spec (List.length (strip h)) 0) as [E | N].
    + apply length_zero_iff_nil in E. apply strip_nil in E.
      split; [discriminate | contradiction].
    + destruct (Nat.eqb_spec (List.length (split plus_sign (lower h))) 0)
        as [E' | N'].
      * apply length_zero_iff_nil in E'.
        exfalso. exact (split_not_nil _ _ E').
      * split; [| reflexivity].
        intros _ Hb. apply strip_nil in Hb. rewrite Hb in N. apply N.
        reflexivity.
  - apply truthy_false in Et. subst h.
    split; [discriminate |]. intros H. exfalso. apply H. constructor.
Qed.

Lemma validate_hotkey_iff_not_blank_witness :
  ~ blank (of_string "+++") /\
  _validate_hotkey (of_string "+++") = true /\
  blank (of_string "   ") /\
  _validate_hotkey (of_string "   ") <> true.
Proof.
  assert (Hn : ~ blank (of_string "+++")).
  { intros H. apply strip_nil in H. discriminate H. }
  assert (Hb : blank (of_string "   ")) by (repeat constructor).
  split; [exact Hn |].
  split; [exact (proj2 (validate_hotkey_iff_not_blank (of_string "+++")) Hn) |].
  split; [exact Hb |].
  intros H.
  exact (proj1 (validate_hotkey_iff_not_blank (of_string "   ")) H Hb).
Defined.

Example validate_hotkey_samples :
  map _validate_hotkey
      [of_string "ctrl+shift+t"; of_string "+++"; of_string "foo";
       of_string "  "; of_string ""]
  = [true; true; true; false; false].
Proof. reflexivity. Qed.

(** X5.  [stop] never raises, and stopping twice is stopping once: after a
    [stop] that went through the listener is not running and the second
    call does nothing; after a [stop] whose [remove_hotkey] raised, the
    listener and the library are as before, the listener still running. *)
Theorem stop_is_idempotent :
  forall w : HotkeyListener.world,
    fst (stop w) = Returned tt /\
    stop (snd (stop w)) = (Returned tt, snd (stop w)) /\
    (is_running (fst (snd (stop w))) = true -> snd (stop w) = w).
Proof.
  intros [[h run] kb].
  unfold stop, self, set_self, keyboard, Keyboard.remove_hotkey,
    try_except, bind, gets, modify, ret.
  cbn [fst snd is_running hotkey].
  destruct run; cbn [negb]; [| repeat split; reflexivity].
  destruct (existsb (PyStr.eqb h) (Keyboard.registered kb)
            && Keyboard.releases kb h)%bool eqn:E;
    cbn [fst snd is_running hotkey negb];
    repeat (rewrite E; cbn [fst snd is_running hotkey negb]).
  - repeat split; try reflexivity. discriminate.
  - repeat split; reflexivity.
Qed.

Lemma stop_is_idempotent_witness :
  let w := (mk default_hotkey true, Samples.keyboard) in
  is_running (fst (snd (stop w))) = true /\
  snd (stop w) = w /\
  stop (snd (stop w)) = (Returned tt, snd (stop w)).
Proof.
  intros w.
  destruct (stop_is_idempotent w) as (_ & Htwice & Hsame).
  assert (Hr : is_running (fst (snd (stop w))) = true) by reflexivity.
  split; [exact Hr |]. split; [exact (Hsame Hr) | exact Htwice].
Defined.

(** X6.  A [start] whose first registration goes through, followed by
    [stop]: when the library releases the combination, the listener is
    back as it was and so are the registered combinations, so it can be
    started again; when the library refuses, the listener still counts as
    running and the combination stays registered. *)
Theorem start_then_stop :
  forall (l : HotkeyListener.t) (kb : Keyboard.t),
    is_running l = false ->
    _validate_hotkey (hotkey l) = true ->
    Keyboard.accepts kb (Keyboard.attempts kb) (hotkey l) = true ->
    let started := snd (start (l, kb)) in
    let stopped := snd (stop started) in
    fst started = mk (hotkey l) true /\
    Keyboard.registered (snd started) = hotkey l :: Keyboard.registered kb /\
    (Keyboard.releases kb (hotkey l) = true ->
     fst stopped = l /\
     Keyboard.registered (snd stopped) = Keyboard.registered kb) /\
    (Keyboard.releases kb (hotkey l) = false -> stopped = started).
Proof.
  intros [h run] kb Hrun Hv Ha. cbn [is_running hotkey] in *. subst run.
  cbv zeta.
  assert (Hself : PyStr.eqb h h = true) by (apply eqb_eq; reflexivity).
  unfold start, stop, self, set_self, keyboard, Keyboard.add_hotkey,
    Keyboard.remove_hotkey, try_except, bind, gets, modify, raise, ret.
  cbn -[_validate_hotkey default_hotkey PyStr.eqb].
  rewrite Hv. cbn -[_validate_hotkey default_hotkey PyStr.eqb].
  rewrite Ha. cbn -[_validate_hotkey default_hotkey PyStr.eqb].
  rewrite Hself. cbn -[_validate_hotkey default_hotkey PyStr.eqb].
  split; [reflexivity |]. split; [reflexivity |].
  split; intros Hr; rewrite Hr; cbn -[_validate_hotkey default_hotkey PyStr.eqb].
  - split; reflexivity.
  - reflexivity.
Qed.

Lemma start_then_stop_witness :
  let l := mk default_hotkey false in
  is_running l = false /\
  _validate_hotkey (hotkey l) = true /\
  snd (stop (snd (start (l, Samples.keyboard)))) 
  = (l, Keyboard.mk (Keyboard.accepts Samples.keyboard)
                    (Keyboard.releases Samples.keyboard)
                    [default_hotkey] []).
Proof.
  intros l.
  split; [reflexivity |]. split; [reflexivity |].
  destruct (start_then_stop l Samples.keyboard eq_refl eq_refl eq_refl)
    as (_ & _ & Hback & _).
  destruct (Hback eq_refl) as [Hl Hreg].
  reflexivity.
Defined.

End ListenerFacts.

(** ** The floating window: what holds after any events *)

Section SteadyFacts.
Import Py FloatingWindow Gesture Reach.

(* evaluating the field reads of a handler's result *)
Ltac fields :=
  cbn -[scaled Z.mul Z.max Z.min Z.add Z.sub Z.abs Z.leb Z.ltb Qltb
        beyond_threshold].

(* closing the conjuncts of [steady] once the edit flag is known *)
Ltac settle Hed :=
  fields; rewrite ?Hed; fields;
  repeat split; rewrite ?Hed; try lia; try assumption; try congruence.

Lemma steady_fresh (id : nat) (text : PyStr.str) (x y : Z) :
  steady (fresh id text x y).
Proof.
  unfold steady, fresh. fields.
  repeat split; try lia; vm_compute; reflexivity.
Qed.

Lemma left_click_steady (now : Q) (e : Tk.Event) (s : FloatingWindow.t) :
  steady s -> steady (_on_left_click now e s).
Proof.
  unfold steady. intros (Hc & Hk & Ht & Hw & Hh & Hb & Hf).
  unfold _on_left_click.
  destruct (_is_editing s) eqn:Hed;
    (destruct (Qltb (now - _last_click_time s) (1 # 2)); fields;
     [destruct (Z.leb_spec 3 (_click_count s + 1))
     | change (3 <=? 1) with false];
     fields; rewrite ?Hed; fields;
     repeat split; rewrite ?Hed; try lia; try assumption; try congruence).
Qed.

Lemma left_drag_steady (e : Tk.Event) (s : FloatingWindow.t) :
  steady s -> steady (_on_left_drag e s).
Proof.
  unfold steady. intros (Hc & Hk & Ht & Hw & Hh & Hb & Hf).
  unfold _on_left_drag.
  destruct (_is_editing s) eqn:Hed; [settle Hed |].
  fields. destruct (beyond_threshold _ _); settle Hed.
Qed.

Lemma left_release_steady (e : Tk.Event) (s : FloatingWindow.t) :
  steady s -> steady (_on_left_release e s).
Proof.
  unfold steady. intros (Hc & Hk & Ht & Hw & Hh & Hb & Hf).
  unfold _on_left_release.
  destruct (_is_editing s) eqn:Hed; settle Hed.
Qed.

Lemma right_click_steady (e : Tk.Event) (s : FloatingWindow.t) :
  steady s -> steady (_on_right_click e s).
Proof.
  unfold steady. intros (Hc & Hk & Ht & Hw & Hh & Hb & Hf).
  unfold _on_right_click.
  destruct (_is_editing s) eqn:Hed; settle Hed.
Qed.

Lemma right_drag_steady (e : Tk.Event) (s : FloatingWindow.t) :
  steady s ->
  fst (_on_right_drag e s) = Returned tt /\
  steady (snd (_on_right_drag e s)).
Proof.
  unfold steady. intros (Hc & Hk & Ht & Hw & Hh & Hb & Hf).
  unfold _on_right_drag.
  destruct (_is_editing s) eqn:Hed; [settle Hed |].
  fields. destruct (beyond_threshold _ _); [| settle Hed].
  unfold bind, modify, _update_font_size.
  cbn [window set_window Tk.geometry Tk.winfo_width Tk.winfo_height
       _base_font_size].
  rewrite Hb, font_size_for_nonneg by nia.
  settle Hed.
Qed.

Lemma right_release_steady (e : Tk.Event) (s : FloatingWindow.t) :
  steady s -> steady (_on_right_release e s).
Proof.
  unfold steady. intros (Hc & Hk & Ht & Hw & Hh & Hb & Hf).
  unfold _on_right_release, _confirm_delete.
  destruct (_is_editing s) eqn:Hed; [settle Hed |].
  fields.
  match goal with
  | |- context [if ?b then _ else _] => destruct b
  end; settle Hed.
Qed.

Lemma exit_edit_steady (s : FloatingWindow.t) :
  steady s -> steady (_exit_edit_mode s).
Proof.
  unfold steady. intros (Hc & Hk & Ht & Hw & Hh & Hb & Hf).
  unfold _exit_edit_mode. fields.
  repeat split; try lia; try assumption.
Qed.

Lemma dispatch_steady (ev : event) (s : FloatingWindow.t) :
  steady s -> steady (dispatch ev s).
Proof.
  intros Hs. destruct ev; cbn [dispatch].
  - apply left_click_steady; exact Hs.
  - apply left_drag_steady; exact Hs.
  - apply left_release_steady; exact Hs.
  - apply right_click_steady; exact Hs.
  - apply right_drag_steady; exact Hs.
  - apply right_release_steady; exact Hs.
  - destruct (Tk.keys_bound (text_widget s));
      [apply exit_edit_steady |]; exact Hs.
  - destruct (Tk.keys_bound (text_widget s));
      [apply exit_edit_steady |]; exact Hs.
Qed.

Lemma run_steady (evs : list event) :
  forall s : FloatingWindow.t, steady s -> steady (run evs s).
Proof.
  unfold run. induction evs as [|ev evs IH]; intros s Hs; simpl.
  - exact Hs.
  - apply IH. apply dispatch_steady. exact Hs.
Qed.

End SteadyFacts.

(** ** The floating window: properties of every reachable label *)

Section ReachFacts.
Import Py FloatingWindow Gesture Reach.

(** X7.  After any sequence of events on a label, its text is writable
    exactly when the label is in edit mode, and [<Escape>] and [<Return>]
    are bound exactly then: a key pressed outside edit mode does nothing,
    and one pressed in edit mode leaves it without moving or resizing the
    label. *)
Theorem text_is_writable_exactly_in_edit_mode :
  forall (id : nat) (text : PyStr.str) (x y : Z) (evs : list event),
    let s := run evs (fresh id text x y) in
    Tk.keys_bound (text_widget s) = _is_editing s /\
    (Tk.text_state (text_widget s) = Tk.normal <-> _is_editing s = true) /\
    (forall key, key = KeyEscape \/ key = KeyReturn ->
       (_is_editing s = false -> dispatch key s = s) /\
       (_is_editing s = true ->
        _is_editing (dispatch key s) = false /\
        Tk.text_state (text_widget (dispatch key s)) = Tk.disabled /\
        placement (dispatch key s) = placement s)).
Proof.
  intros id text x y evs s.
  destruct (run_steady evs _ (steady_fresh id text x y))
    as (_ & Hk & Ht & _).
  fold s in Hk, Ht.
  split; [exact Hk |].
  split.
  - rewrite Ht. destruct (_is_editing s); split; congruence.
  - intros key [-> | ->]; cbn [dispatch]; rewrite Hk;
      (split; intros Hed; rewrite Hed; [reflexivity |]);
      repeat split.
Qed.

(** X8.  After any sequence of events the consecutive-click counter of a
    label is 0, 1 or 2: the press that would make it 3 enters edit mode
    and stores 0 instead. *)
Theorem click_count_stays_below_three :
  forall (id : nat) (text : PyStr.str) (x y : Z) (evs : list event),
    let s := run evs (fresh id text x y) in
    0 <= _click_count s <= 2 /\
    (forall (now : Q) (e : Tk.Event),
        1 <= counted now s <= 3 /\
        _click_count (_on_left_click now e s)
        = (if counted now s =? 3 then 0 else counted now s)).
Proof.
  intros id text x y evs s.
  destruct (run_steady evs _ (steady_fresh id text x y)) as (Hc & _).
  fold s in Hc.
  split; [exact Hc |].
  intros now e. unfold _on_left_click, counted.
  destruct (Qltb (now - _last_click_time s) (1 # 2));
    cbn [set_click_count set_last_click_time _click_count].
  - split; [lia |].
    destruct (Z.leb_spec 3 (_click_count s + 1));
      destruct (Z.eqb_spec (_click_count s + 1) 3); try lia;
      [reflexivity | destruct (_is_editing _); reflexivity].
  - split; [lia |].
    change (3 <=? 1) with false. change (1 =? 3) with false.
    destruct (_is_editing _); reflexivity.
Qed.

(** X9.  After any sequence of events a label is at least 200 wide and
    100 high, its font size lies between 10 and 32, and the resize handler
    returns normally on whatever motion comes next: the area it computes
    the font size from is never negative. *)
Theorem size_and_font_stay_in_bounds :
  forall (id : nat) (text : PyStr.str) (x y : Z) (evs : list event),
    let s := run evs (fresh id text x y) in
    200 <= Tk.winfo_width (window s) /\
    100 <= Tk.winfo_height (window s) /\
    10 <= Tk.font_size (text_widget s) <= 32 /\
    (forall e : Tk.Event,
        fst (_on_right_drag e s) = Returned tt /\
        10 <= Tk.font_size (text_widget (snd (_on_right_drag e s))) <= 32).
Proof.
  intros id text x y evs s.
  pose proof (run_steady evs _ (steady_fresh id text x y)) as Hs.
  fold s in Hs.
  assert (Hdrag : forall e,
             fst (_on_right_drag e s) = Returned tt /\
             10 <= Tk.font_size (text_widget (snd (_on_right_drag e s))) <= 32).
  { intros e. destruct (right_drag_steady e s Hs) as [Hr Hs'].
    split; [exact Hr |].
    destruct Hs' as (_ & _ & _ & _ & _ & _ & Hf'). rewrite Hf'. lia. }
  destruct Hs as (_ & _ & _ & Hw & Hh & Hb & Hf).
  split; [exact Hw |]. split; [exact Hh |].
  split; [rewrite Hf; lia | exact Hdrag].
Qed.

Lemma text_is_writable_exactly_in_edit_mode_witness :
  let e := Tk.mkEvent 300 250 in
  let clicks := [Button1 (1000 # 1) e; Button1 (10001 # 10) e;
                 Button1 (10002 # 10) e] in
  let s := run clicks (fresh 0 (PyStr.of_string "note") 100 100) in
  _is_editing s = true /\
  Tk.text_state (text_widget s) = Tk.normal /\
  _is_editing (dispatch KeyEscape s) = false /\
  dispatch KeyReturn (dispatch KeyEscape s) = dispatch KeyEscape s.
Proof.
  intros e clicks s.
  destruct (text_is_writable_exactly_in_edit_mode
              0%nat (PyStr.of_string "note") 100 100 clicks)
    as (_ & Ht & Hkey).
  fold s in Ht, Hkey.
  assert (Hed : _is_editing s = true) by (vm_compute; reflexivity).
  split; [exact Hed |].
  split; [exact (proj2 Ht Hed) |].
  split; [exact (proj1 (proj2 (Hkey KeyEscape (or_introl eq_refl)) Hed)) |].
  vm_compute. reflexivity.
Defined.

End ReachFacts.

(** ** The floating window: whole gestures *)

Section WholeGestureFacts.
Import Py FloatingWindow Gesture Reach.

Lemma last_cons {A} (a d : A) (l : list A) : last (a :: l) d = last l a.
Proof.
  revert a d. induction l as [|b l IH]; intros a d; [reflexivity |].
  change (last (a :: b :: l) d) with (last (b :: l) d).
  rewrite (IH b d), (IH b a). reflexivity.
Qed.

(** One motion of the primary button outside edit mode: the window keeps
    its offset from the anchor, and the anchor ends within the threshold
    of the pointer. *)
Lemma left_drag_keeps_offset (e : Tk.Event) (s : FloatingWindow.t) :
  _is_editing s = false ->
  Z.abs (Tk.x_root e - _drag_start_x s) <= 5 /\
  Z.abs (Tk.y_root e - _drag_start_y s) <= 5 /\ _on_left_drag e s = s
  \/
  (let s' := _on_left_drag e s in
   _is_editing s' = false /\
   _drag_start_x s' = Tk.x_root e /\
   _drag_start_y s' = Tk.y_root e /\
   Tk.winfo_x (window s') - _drag_start_x s'
   = Tk.winfo_x (window s) - _drag_start_x s /\
   Tk.winfo_y (window s') - _drag_start_y s'
   = Tk.winfo_y (window s) - _drag_start_y s /\
   Tk.winfo_width (window s') = Tk.winfo_width (window s) /\
   Tk.winfo_height (window s') = Tk.winfo_height (window s)).
Proof.
  intros Hed. unfold _on_left_drag. rewrite Hed. cbn [negb].
  unfold beyond_threshold.
  destruct (Z.ltb_spec 5 (Z.abs (Tk.x_root e - _drag_start_x s)));
    destruct (Z.ltb_spec 5 (Z.abs (Tk.y_root e - _drag_start_y s)));
    cbn [orb];
    try (right; cbn; rewrite ?Hed; repeat split; lia).
  left. repeat split; assumption.
Qed.

Lemma motions_keep_offset (points : list Tk.Event) :
  forall (s : FloatingWindow.t) (e0 : Tk.Event),
    _is_editing s = false ->
    Z.abs (Tk.x_root e0 - _drag_start_x s) <= 5 ->
    Z.abs (Tk.y_root e0 - _drag_start_y s) <= 5 ->
    let s' := run (primary_motions points) s in
    let e := last points e0 in
    _is_editing s' = false /\
    Z.abs (Tk.x_root e - _drag_start_x s') <= 5 /\
    Z.abs (Tk.y_root e - _drag_start_y s') <= 5 /\
    Tk.winfo_x (window s') - _drag_start_x s'
    = Tk.winfo_x (window s) - _drag_start_x s /\
    Tk.winfo_y (window s') - _drag_start_y s'
    = Tk.winfo_y (window s) - _drag_start_y s /\
    Tk.winfo_width (window s') = Tk.winfo_width (window s) /\
    Tk.winfo_height (window s') = Tk.winfo_height (window s).
Proof.
  induction points as [|e1 points IH]; intros s e0 Hed Hx Hy; cbv zeta.
  - cbn. repeat split; assumption.
  - rewrite last_cons.
    change (run (primary_motions (e1 :: points)) s)
      with (run (primary_motions points) (_on_left_drag e1 s)).
    destruct (left_drag_keeps_offset e1 s Hed)
      as [(Hx1 & Hy1 & E) | (Hed' & Ax & Ay & Ox & Oy & Ew & Eh)].
    + rewrite E. exact (IH s e1 Hed Hx1 Hy1).
    + destruct (IH (_on_left_drag e1 s) e1 Hed'
                   ltac:(rewrite Ax, Z.sub_diag; simpl; lia)
                   ltac:(rewrite Ay, Z.sub_diag; simpl; lia))
        as (H1 & H2 & H3 & H4 & H5 & H6 & H7).
      repeat split; try assumption; congruence.
Qed.

(** X10.  A drag: a press of the primary button outside edit mode that
    does not complete a triple click, followed by any motions.  The window
    keeps its size and follows the pointer: in each axis its displacement
    differs from the pointer's, from the press to the last motion, by at
    most 5 pixels, the part of the motion not yet taken up. *)
Theorem drag_follows_the_pointer :
  forall (s : FloatingWindow.t) (now : Q) (press : Tk.Event)
         (points : list Tk.Event),
    _is_editing s = false ->
    counted now s < 3 ->
    let s' := run (Button1 now press :: primary_motions points) s in
    let e := last points press in
    Z.abs ((Tk.winfo_x (window s') - Tk.winfo_x (window s))
           - (Tk.x_root e - Tk.x_root press)) <= 5 /\
    Z.abs ((Tk.winfo_y (window s') - Tk.winfo_y (window s))
           - (Tk.y_root e - Tk.y_root press)) <= 5 /\
    Tk.winfo_width (window s') = Tk.winfo_width (window s) /\
    Tk.winfo_height (window s') = Tk.winfo_height (window s) /\
    _is_editing s' = false.
Proof.
  intros s now press points Hed Hc. cbv zeta.
  change (run (Button1 now press :: primary_motions points) s)
    with (run (primary_motions points) (_on_left_click now press s)).
  destruct (left_click_counts now press s Hed Hc)
    as (Hed1 & _ & _ & Hx1 & Hy1 & _ & Hp1).
  unfold placement in Hp1. inversion Hp1 as [[Px Py Pw Ph]]. clear Hp1.
  destruct (motions_keep_offset points (_on_left_click now press s) press Hed1
              ltac:(rewrite Hx1, Z.sub_diag; simpl; lia)
              ltac:(rewrite Hy1, Z.sub_diag; simpl; lia))
    as (H1 & H2 & H3 & H4 & H5 & H6 & H7).
  repeat split; try congruence; lia.
Qed.

Lemma drag_follows_the_pointer_witness :
  let press := Tk.mkEvent 300 250 in
  let points := [Tk.mkEvent 303 251; Tk.mkEvent 340 250; Tk.mkEvent 343 254] in
  _is_editing Samples.label = false /\
  counted (1000 # 1) Samples.label < 3 /\
  placement (run (Button1 (1000 # 1) press :: primary_motions points)
                 Samples.label)
  = (140, 100, 500, 200).
Proof.
  intros press points.
  assert (Hc : counted (1000 # 1) Samples.label < 3) by reflexivity.
  pose proof (drag_follows_the_pointer Samples.label (1000 # 1) press points
                eq_refl Hc) as H.
  split; [reflexivity |]. split; [exact Hc |]. reflexivity.
Defined.

(** One motion of the secondary button outside edit mode. *)
Lemma right_drag_step (e : Tk.Event) (s : FloatingWindow.t) :
  _is_editing s = false ->
  0 <= (Z.max (_resize_start_width s + (Tk.x_root e - _resize_start_x s)) 200)
       * (Z.max (_resize_start_height s + (Tk.y_root e - _resize_start_y s)) 100) ->
  let s' := snd (_on_right_drag e s) in
  _is_editing s' = false /\
  _resize_start_x s' = _resize_start_x s /\
  _resize_start_y s' = _resize_start_y s /\
  _resize_start_width s' = _resize_start_width s /\
  _resize_start_height s' = _resize_start_height s /\
  Tk.winfo_x (window s') = Tk.winfo_x (window s) /\
  Tk.winfo_y (window s') = Tk.winfo_y (window s) /\
  (Tk.winfo_width (window s'), Tk.winfo_height (window s'))
  = (if beyond_threshold (Tk.x_root e - _resize_start_x s)
                         (Tk.y_root e - _resize_start_y s)
     then (Z.max (_resize_start_width s + (Tk.x_root e - _resize_start_x s)) 200,
           Z.max (_resize_start_height s + (Tk.y_root e - _resize_start_y s)) 100)
     else (Tk.winfo_width (window s), Tk.winfo_height (window s))).
Proof.
  intros Hed Harea. cbv zeta. unfold _on_right_drag. rewrite Hed. cbn [negb].
  destruct (beyond_threshold _ _); [| cbn; rewrite ?Hed; repeat split].
  unfold bind, modify, _update_font_size.
  cbn [window set_window Tk.geometry Tk.winfo_width Tk.winfo_height
       _base_font_size].
  rewrite font_size_for_nonneg by exact Harea.
  cbn. rewrite ?Hed. repeat split.
Qed.

Lemma max_area_nonneg (a b : Z) : 0 <= Z.max a 200 * Z.max b 100.
Proof. nia. Qed.

Lemma resize_motions (anchor : Tk.Event) (points : list Tk.Event) :
  forall s : FloatingWindow.t,
    _is_editing s = false ->
    _resize_start_x s = Tk.x_root anchor ->
    _resize_start_y s = Tk.y_root anchor ->
    let s' := run (secondary_motions points) s in
    _is_editing s' = false /\
    Tk.winfo_x (window s') = Tk.winfo_x (window s) /\
    Tk.winfo_y (window s') = Tk.winfo_y (window s) /\
    (Tk.winfo_width (window s'), Tk.winfo_height (window s'))
    = match last_beyond anchor points with
      | Some e =>
          (Z.max (_resize_start_width s + (Tk.x_root e - Tk.x_root anchor)) 200,
           Z.max (_resize_start_height s + (Tk.y_root e - Tk.y_root anchor)) 100)
      | None => (Tk.winfo_width (window s), Tk.winfo_height (window s))
      end.
Proof.
  induction points as [|e points IH]; intros s Hed Hx Hy; cbv zeta.
  - cbn. repeat split; assumption.
  - change (run (secondary_motions (e :: points)) s)
      with (run (secondary_motions points) (snd (_on_right_drag e s))).
    destruct (right_drag_step e s Hed (max_area_nonneg _ _))
      as (Hed1 & Ax & Ay & Aw & Ah & Px & Py & Hsize).
    destruct (IH (snd (_on_right_drag e s)) Hed1
                 ltac:(congruence) ltac:(congruence))
      as (H1 & H2 & H3 & H4).
    split; [exact H1 |]. split; [congruence |]. split; [congruence |].
    rewrite H4. cbn [last_beyond].
    destruct (last_beyond anchor points) as [e' |].
    + rewrite Aw, Ah. reflexivity.
    + rewrite Hx, Hy in Hsize. rewrite Hsize.
      destruct (beyond_threshold (Tk.x_root e - Tk.x_root anchor)
                                 (Tk.y_root e - Tk.y_root anchor));
        reflexivity.
Qed.

(** X11.  A resize: a press of the secondary button outside edit mode,
    followed by any motions.  The window stays where it is, and its size
    is decided by the last motion that lies beyond the threshold from the
    press alone: the size at the press plus that motion's distance from
    the press, not below 200 by 100.  Motions within the threshold change
    nothing, so a pointer brought back to the press leaves the size of
    the last motion beyond it. *)
Theorem resize_is_decided_by_the_last_motion_beyond :
  forall (s : FloatingWindow.t) (press : Tk.Event) (points : list Tk.Event),
    _is_editing s = false ->
    let s' := run (Button3 press :: secondary_motions points) s in
    Tk.winfo_x (window s') = Tk.winfo_x (window s) /\
    Tk.winfo_y (window s') = Tk.winfo_y (window s) /\
    (Tk.winfo_width (window s'), Tk.winfo_height (window s'))
    = match last_beyond press points with
      | Some e =>
          (Z.max (Tk.winfo_width (window s) + (Tk.x_root e - Tk.x_root press)) 200,
           Z.max (Tk.winfo_height (window s) + (Tk.y_root e - Tk.y_root press)) 100)
      | None => (Tk.winfo_width (window s), Tk.winfo_height (window s))
      end.
Proof.
  intros s press points Hed. cbv zeta.
  change (run (Button3 press :: secondary_motions points) s)
    with (run (secondary_motions points) (_on_right_click press s)).
  assert (E : _on_right_click press s
              = set_resize_start (Tk.x_root press) (Tk.y_root press)
                  (Tk.winfo_width (window s)) (Tk.winfo_height (window s)) s).
  { unfold _on_right_click. rewrite Hed. reflexivity. }
  rewrite E.
  destruct (resize_motions press points
              (set_resize_start (Tk.x_root press) (Tk.y_root press)
                 (Tk.winfo_width (window s)) (Tk.winfo_height (window s)) s)
              Hed eq_refl eq_refl) as (_ & Hx & Hy & Hsize).
  split; [exact Hx |]. split; [exact Hy |]. exact Hsize.
Qed.

Lemma resize_is_decided_by_the_last_motion_beyond_witness :
  let press := Tk.mkEvent 300 250 in
  let points := [Tk.mkEvent 360 310; Tk.mkEvent 420 250; Tk.mkEvent 302 251] in
  _is_editing Samples.label = false /\
  last_beyond press points = Some (Tk.mkEvent 420 250) /\
  placement (run (Button3 press :: secondary_motions points) Samples.label)
  = (100, 100, 620, 200).
Proof.
  intros press points.
  destruct (resize_is_decided_by_the_last_motion_beyond
              Samples.label press points eq_refl) as (Hx & Hy & Hsize).
  split; [reflexivity |]. split; [reflexivity |].
  pose proof (f_equal fst Hsize) as Hw. pose proof (f_equal snd Hsize) as Hh.
  cbn [fst snd] in Hw, Hh.
  unfold placement. rewrite Hx, Hy, Hw, Hh. reflexivity.
Defined.

End WholeGestureFacts.

(** ** The floating window: clicks *)

Section ClickFacts.
Import Py FloatingWindow Gesture Reach.

Lemma still_right_click (p : Tk.Event) (s : FloatingWindow.t) :
  _is_editing s = false ->
  let s' := _on_right_release p (_on_right_click p s) in
  _is_editing s' = false /\
  placement s' = placement s /\
  Tk.children (window s')
  = Tk.children (window s)
    ++ [(Tk.winfo_x (window s) + (Tk.winfo_width (window s) - 250) / 2,
         Tk.winfo_y (window s) + (Tk.winfo_height (window s) - 100) / 2)].
Proof.
  intros Hed. cbv zeta. unfold _on_right_release, _on_right_click.
  rewrite Hed. cbn [negb]. cbn [_is_editing set_resize_start]. rewrite Hed.
  cbn [negb _resize_start_x _resize_start_y].
  rewrite !Z.sub_diag. change (Z.abs 0 <=? 5) with true. cbn [andb].
  unfold _confirm_delete. cbn. rewrite Hed. repeat split.
Qed.

(** X12.  Each secondary click that does not move, on a label outside
    edit mode, opens one more delete confirmation, centred on the label:
    [k] such clicks leave [k] confirmations open side by side, since
    nothing looks for one that is already there.  The label itself stays
    as it is. *)
Theorem every_still_right_click_opens_a_confirmation :
  forall (s : FloatingWindow.t) (points : list Tk.Event),
    _is_editing s = false ->
    let s' := run (secondary_clicks points) s in
    Tk.children (window s')
    = Tk.children (window s)
      ++ repeat (Tk.winfo_x (window s) + (Tk.winfo_width (window s) - 250) / 2,
                 Tk.winfo_y (window s) + (Tk.winfo_height (window s) - 100) / 2)
                (List.length points) /\
    confirmations s' = (confirmations s + List.length points)%nat /\
    placement s' = placement s /\
    _is_editing s' = false.
Proof.
  intros s points. revert s.
  induction points as [|p points IH]; intros s Hed; cbv zeta.
  - cbn. rewrite app_nil_r. repeat split; [lia | exact Hed].
  - change (run (secondary_clicks (p :: points)) s)
      with (run (secondary_clicks points)
                (_on_right_release p (_on_right_click p s))).
    destruct (still_right_click p s Hed) as (Hed1 & Hp1 & Hc1).
    destruct (IH _ Hed1) as (Hc & Hn & Hp & Hed').
    unfold placement in Hp1. injection Hp1 as Px Py Pw Ph.
    rewrite Px, Py, Pw, Ph in Hc.
    assert (Hch : Tk.children
                    (window (run (secondary_clicks points)
                               (_on_right_release p (_on_right_click p s))))
                  = Tk.children (window s)
                    ++ repeat
                         (Tk.winfo_x (window s)
                          + (Tk.winfo_width (window s) - 250) / 2,
                          Tk.winfo_y (window s)
                          + (Tk.winfo_height (window s) - 100) / 2)
                         (List.length (p :: points))).
    { rewrite Hc, Hc1, <- app_assoc. reflexivity. }
    split; [exact Hch |].
    split; [unfold confirmations; rewrite Hch, length_app, repeat_length;
            reflexivity |].
    split; [unfold placement in *; congruence | exact Hed'].
Qed.

Lemma every_still_right_click_opens_a_confirmation_witness :
  let p := Tk.mkEvent 300 250 in
  _is_editing Samples.label = false /\
  Tk.children (window (run (secondary_clicks [p; p; p]) Samples.label))
  = [(225, 150); (225, 150); (225, 150)].
Proof.
  intros p. split; [reflexivity |].
  destruct (every_still_right_click_opens_a_confirmation
              Samples.label [p; p; p] eq_refl) as (Hc & _).
  rewrite Hc. reflexivity.
Defined.

(** X13.  A drag cancels a pending multi-click.  After a motion of the
    primary button that moved the label, the counter is 0, and the next
    two presses, however quick, do not enter edit mode. *)
Theorem drag_cancels_a_pending_multi_click :
  forall (s : FloatingWindow.t) (e : Tk.Event),
    _is_editing s = false ->
    beyond_threshold (Tk.x_root e - _drag_start_x s)
                     (Tk.y_root e - _drag_start_y s) = true ->
    _click_count (_on_left_drag e s) = 0 /\
    (forall (t1 t2 : Q) (e1 e2 : Tk.Event),
        let s' := run [B1Motion e; Button1 t1 e1; Button1 t2 e2] s in
        _is_editing s' = false /\
        edit_entries s' = edit_entries s /\
        1 <= _click_count s' <= 2).
Proof.
  intros s e Hed Hb.
  assert (E : _on_left_drag e s
              = set_text_widget
                  (Tk.config_cursor Tk.cursor_fleur (text_widget s))
                  (set_window
                     (Tk.topmost
                        (Tk.move_to
                           (Tk.winfo_x (window s) + (Tk.x_root e - _drag_start_x s))
                           (Tk.winfo_y (window s) + (Tk.y_root e - _drag_start_y s))
                           (window s)))
                     (set_drag_start (Tk.x_root e) (Tk.y_root e)
                        (set_click_count 0 s)))).
  { unfold _on_left_drag. rewrite Hed, Hb. reflexivity. }
  split; [rewrite E; reflexivity |].
  intros t1 t2 e1 e2. cbv zeta.
  change (run [B1Motion e; Button1 t1 e1; Button1 t2 e2] s)
    with (_on_left_click t2 e2 (_on_left_click t1 e1 (_on_left_drag e s))).
  set (s1 := _on_left_drag e s) in *.
  assert (Hed1 : _is_editing s1 = false) by (rewrite E; exact Hed).
  assert (Hn1 : _click_count s1 = 0) by (rewrite E; reflexivity).
  assert (He1 : edit_entries s1 = edit_entries s) by (rewrite E; reflexivity).
  assert (Hc1 : counted t1 s1 = 1).
  { unfold counted. rewrite Hn1. destruct (Qltb _ _); reflexivity. }
  destruct (left_click_counts t1 e1 s1 Hed1 ltac:(lia))
    as (Hed2 & Hn2 & _ & _ & _ & He2 & _).
  set (s2 := _on_left_click t1 e1 s1) in *.
  assert (Hc2 : 1 <= counted t2 s2 <= 2).
  { unfold counted. rewrite Hn2, Hc1. destruct (Qltb _ _); lia. }
  destruct (left_click_counts t2 e2 s2 Hed2 ltac:(lia))
    as (Hed3 & Hn3 & _ & _ & _ & He3 & _).
  split; [exact Hed3 |]. split; [congruence | lia].
Qed.

Lemma drag_cancels_a_pending_multi_click_witness :
  let e := Tk.mkEvent 300 250 in
  let s := run [Button1 (1000 # 1) e; Button1 (10001 # 10) e] Samples.label in
  _is_editing s = false /\
  _click_count s = 2 /\
  beyond_threshold (Tk.x_root (Tk.mkEvent 320 250) - _drag_start_x s)
                   (Tk.y_root (Tk.mkEvent 320 250) - _drag_start_y s) = true /\
  _is_editing
    (run [B1Motion (Tk.mkEvent 320 250); Button1 (10002 # 10) e;
          Button1 (10003 # 10) e] s) = false.
Proof.
  intros e s.
  split; [reflexivity |]. split; [reflexivity |]. split; [reflexivity |].
  destruct (drag_cancels_a_pending_multi_click s (Tk.mkEvent 320 250)
              eq_refl eq_refl) as [_ H].
  exact (proj1 (H (10002 # 10) (10003 # 10) e e)).
Defined.

End ClickFacts.

(** ** The application: the tracking list *)

Section TrackingFacts.
Import Py PyStr Application Session.

Lemma member_In (id : nat) (l : list FloatingWindow.t) :
  member id l = true <-> In id (map FloatingWindow.ident l).
Proof.
  unfold member. rewrite existsb_exists. split.
  - intros (o & Ho & E). apply Nat.eqb_eq in E. subst id.
    apply in_map. exact Ho.
  - intros H. apply in_map_iff in H. destruct H as (o & E & Ho).
    exists o. split; [exact Ho |]. apply Nat.eqb_eq. exact E.
Qed.

Lemma remove_absent (id : nat) (l : list FloatingWindow.t) :
  ~ In id (map FloatingWindow.ident l) -> remove id l = l.
Proof.
  induction l as [|o l IH]; intros Hn; simpl; [reflexivity |].
  destruct (Nat.eqb_spec (FloatingWindow.ident o) id) as [E | N].
  - exfalso. apply Hn. left. exact E.
  - rewrite IH; [reflexivity |]. intros H. apply Hn. right. exact H.
Qed.

Lemma remove_middle (id : nat) (kept rest : list FloatingWindow.t)
      (o : FloatingWindow.t) :
  FloatingWindow.ident o = id ->
  ~ In id (map FloatingWindow.ident kept) ->
  remove id (kept ++ o :: rest) = kept ++ rest.
Proof.
  intros Ho. induction kept as [|k kept IH]; intros Hn; simpl.
  - rewrite Ho, Nat.eqb_refl. reflexivity.
  - destruct (Nat.eqb_spec (FloatingWindow.ident k) id) as [E | N].
    + exfalso. apply Hn. left. exact E.
    + rewrite IH; [reflexivity |]. intros H. apply Hn. right. exact H.
Qed.

Lemma In_split_first (id : nat) (l : list FloatingWindow.t) :
  In id (map FloatingWindow.ident l) ->
  exists kept o rest,
    l = kept ++ o :: rest /\ FloatingWindow.ident o = id /\
    ~ In id (map FloatingWindow.ident kept).
Proof.
  induction l as [|x l IH]; intros H; [destruct H |].
  destruct (Nat.eq_dec (FloatingWindow.ident x) id) as [E | N].
  - exists [], x, l. repeat split; auto.
  - destruct H as [H | H]; [contradiction |].
    destruct (IH H) as (kept & o & rest & El & Eo & Hn).
    exists (x :: kept), o, rest. subst l. repeat split; auto.
    intros [H' | H']; [contradiction | exact (Hn H')].
Qed.

(** X14.  [remove_floating_window] never raises.  For a label the list
    does not hold it changes nothing at all.  For one it holds, the list
    loses that label and nothing else, in the same order: one entry fewer,
    and the label is no longer tracked when the list held it once. *)
Theorem remove_floating_window_drops_one :
  forall (w : world) (id : nat),
    fst (remove_floating_window id w) = Returned tt /\
    (~ In id (idents w) -> snd (remove_floating_window id w) = w) /\
    (In id (idents w) ->
     exists kept o rest,
       floating_windows (app w) = kept ++ o :: rest /\
       FloatingWindow.ident o = id /\
       floating_windows (app (snd (remove_floating_window id w))) = kept ++ rest /\
       (NoDup (idents w) ->
        ~ In id (idents (snd (remove_floating_window id w))))).
Proof.
  intros w id.
  unfold remove_floating_window, try_except, bind, gets, update, on_app,
    modify, ret, idents.
  cbn [fst snd].
  destruct (member id (floating_windows (app w))) eqn:Em; cbn [fst snd app].
  - split; [reflexivity |].
    apply member_In in Em.
    split; [intros Hn; contradiction |].
    intros _.
    destruct (In_split_first id _ Em) as (kept & o & rest & El & Eo & Hn).
    exists kept, o, rest.
    split; [exact El |]. split; [exact Eo |].
    cbn [floating_windows set_floating_windows].
    rewrite El, (remove_middle id kept rest o Eo Hn).
    split; [reflexivity |].
    intros Hnd. rewrite map_app in *. cbn [map] in Hnd. rewrite Eo in Hnd.
    apply NoDup_remove_2 in Hnd. rewrite <- map_app.
    rewrite map_app. exact Hnd.
  - split; [reflexivity |].
    split; [intros _; destruct w; reflexivity |].
    intros Hin. apply member_In in Hin. congruence.
Qed.

Lemma remove_floating_window_drops_one_witness :
  let w := Samples.busy_world Samples.no_faults in
  In 0%nat (idents w) /\ ~ In 7%nat (idents w) /\
  idents (snd (remove_floating_window 0 w)) = [1%nat] /\
  snd (remove_floating_window 7 w) = w.
Proof.
  intros w.
  assert (H0 : In 0%nat (idents w)) by (left; reflexivity).
  assert (H7 : ~ In 7%nat (idents w)).
  { intros H. vm_compute in H. intuition discriminate. }
  destruct (remove_floating_window_drops_one w 7) as (_ & Hsame & _).
  split; [exact H0 |]. split; [exact H7 |].
  split; [reflexivity | exact (Hsame H7)].
Defined.




End TrackingFacts.

(** ** The application: what quitting closes *)

Section ClosingFacts.
Import Py PyStr Application Session.

Lemma keeps_ret {A} (a : A) : keeps_tracking (ret a : M world A).
Proof. intros w. repeat split. Qed.

Lemma keeps_called (c : teardown) : keeps_tracking (called c).
Proof. intros w. repeat split. Qed.

Lemma keeps_library_call (fails : Faults -> bool) :
  keeps_tracking (library_call fails).
Proof.
  intros w. unfold library_call, bind, gets, raise, ret. cbn [fst snd].
  destruct (fails (faults w)); repeat split.
Qed.

Lemma keeps_bind {A B} (m : M world A) (k : A -> M world B) :
  keeps_tracking m -> (forall a, keeps_tracking (k a)) ->
  keeps_tracking (bind m k).
Proof.
  intros Hm Hk w. unfold bind.
  destruct (Hm w) as (H1 & H2 & H3).
  destruct (m w) as [[a | e] w1]; cbn [snd] in *.
  - destruct (Hk a w1) as (K1 & K2 & K3).
    repeat split; congruence.
  - repeat split; assumption.
Qed.

Lemma keeps_try_pass (m : M world unit) :
  keeps_tracking m -> keeps_tracking (try_pass m).
Proof.
  intros Hm w. unfold try_pass, try_except, ret.
  destruct (Hm w) as (H1 & H2 & H3).
  destruct (m w) as [[[] | e] w1]; cbn [snd] in *; repeat split; assumption.
Qed.

Lemma keeps_update (f : Application.t -> Application.t) :
  (forall a, floating_windows (f a) = floating_windows a) ->
  keeps_tracking (update f).
Proof. intros Hf w. unfold update, on_app, modify. cbn. repeat split. apply Hf. Qed.

Lemma stop_returns (w : HotkeyListener.world) :
  fst (HotkeyListener.stop w) = Returned tt.
Proof.
  destruct w as [[h run] kb].
  unfold HotkeyListener.stop, HotkeyListener.self, HotkeyListener.set_self,
    HotkeyListener.keyboard, Keyboard.remove_hotkey,
    try_except, bind, gets, modify, ret.
  cbn [fst snd HotkeyListener.is_running HotkeyListener.hotkey].
  destruct run; cbn [negb]; [| reflexivity].
  destruct (existsb _ _ && _)%bool; reflexivity.
Qed.

Lemma listener_stop_keeps (l : HotkeyListener.t) :
  keeps_tracking (listener_stop l) /\
  forall w, fst (listener_stop l w) = Returned tt.
Proof.
  split; intros w; unfold listener_stop;
    pose proof (stop_returns (l, keyboard w)) as Hr;
    destruct (HotkeyListener.stop (l, keyboard w)) as [r [l' kb]];
    cbn [fst snd] in *.
  - repeat split.
  - exact Hr.
Qed.

Lemma tray_stop_keeps (s : SystemTray.t) : keeps_tracking (tray_stop s).
Proof.
  unfold tray_stop. destruct (SystemTray.icon s); [| apply keeps_ret].
  apply keeps_bind; [apply keeps_library_call |].
  intros _. apply keeps_update. reflexivity.
Qed.

Lemma input_hide_keeps : keeps_tracking input_hide.
Proof.
  intros w. unfold input_hide, InputWindow.hide, bind, gets, modify, ret.
  cbn [fst snd].
  destruct (InputWindow.window (prompt w)); [| repeat split].
  destruct (keeps_library_call input_destroy_raises w) as (H1 & H2 & H3).
  destruct (library_call input_destroy_raises w) as [[[] | e] w1];
    cbn [snd] in *; repeat split; assumption.
Qed.

Lemma root_quit_keeps : keeps_tracking root_quit.
Proof.
  unfold root_quit. apply keeps_bind; [apply keeps_library_call |].
  intros _. apply keeps_update. intros a. destruct (root a); reflexivity.
Qed.

Lemma root_destroy_keeps : keeps_tracking root_destroy.
Proof.
  unfold root_destroy. apply keeps_bind; [apply keeps_library_call |].
  intros _. apply keeps_update. intros a. destruct (root a); reflexivity.
Qed.

(** Marking a label closed touches that label only. *)
Lemma mark_absent (id : nat) (l : list FloatingWindow.t) :
  ~ In id (map FloatingWindow.ident l) ->
  map (fun o => if Nat.eqb (FloatingWindow.ident o) id
                then FloatingWindow.set_closed true o else o) l
  = l.
Proof.
  induction l as [|o l IH]; intros Hn; simpl; [reflexivity |].
  destruct (Nat.eqb_spec (FloatingWindow.ident o) id) as [E | N].
  - exfalso. apply Hn. left. exact E.
  - rewrite IH; [reflexivity |]. intros H. apply Hn. right. exact H.
Qed.

(** Closing the label at the head of what is left of the list. *)
Lemma close_next (x : FloatingWindow.t) (kept rest : list FloatingWindow.t)
      (w : world) :
  floating_windows (app w) = kept ++ x :: rest ->
  NoDup (map FloatingWindow.ident (kept ++ x :: rest)) ->
  FloatingWindow.closed x = false ->
  let w' := snd (try_pass (close x) w) in
  fst (try_pass (close x) w) = Returned tt /\
  faults w' = faults w /\
  next_ident w' = next_ident w /\
  app w'
  = set_floating_windows
      (if window_destroy_raises (faults w) (FloatingWindow.ident x)
       then kept ++ x :: rest else kept ++ rest)
      (app w).
Proof.
  intros Hl Hnd Hc. cbv zeta.
  assert (Hk : ~ In (FloatingWindow.ident x) (map FloatingWindow.ident kept)).
  { rewrite map_app in Hnd. cbn [map] in Hnd.
    apply NoDup_remove_2 in Hnd. intros H. apply Hnd.
    apply in_or_app. left. exact H. }
  assert (Hr : ~ In (FloatingWindow.ident x) (map FloatingWindow.ident rest)).
  { rewrite map_app in Hnd. cbn [map] in Hnd.
    apply NoDup_remove_2 in Hnd. intros H. apply Hnd.
    apply in_or_app. right. exact H. }
  unfold try_pass, try_except, close, bind, called, modify, library_call,
    gets, update, on_app, remove_floating_window, raise, ret.
  unfold try_except, bind, gets, update, on_app, modify, ret.
  rewrite Hc. cbn -[member remove mark_closed].
  destruct (window_destroy_raises (faults w) (FloatingWindow.ident x));
    cbn -[member remove mark_closed].
  - repeat split. rewrite <- Hl. destruct (app w); reflexivity.
  - assert (Em : floating_windows (mark_closed (FloatingWindow.ident x) (app w))
                 = kept ++ FloatingWindow.set_closed true x :: rest).
    { unfold mark_closed. cbn [floating_windows set_floating_windows].
      rewrite Hl, map_app. cbn [map]. rewrite Nat.eqb_refl.
      rewrite (mark_absent _ kept Hk), (mark_absent _ rest Hr). reflexivity. }
    rewrite Em.
    assert (Hmem : member (FloatingWindow.ident x)
                     (kept ++ FloatingWindow.set_closed true x :: rest) = true).
    { apply member_In. rewrite map_app. apply in_or_app. right. left.
      reflexivity. }
    rewrite Hmem. cbn -[remove mark_closed].
    rewrite (remove_middle (FloatingWindow.ident x) kept rest
               (FloatingWindow.set_closed true x) eq_refl Hk).
    repeat split.
Qed.

Lemma set_floating_windows_twice (l l' : list FloatingWindow.t)
      (a : Application.t) :
  set_floating_windows l (set_floating_windows l' a) = set_floating_windows l a.
Proof. reflexivity. Qed.

(** The loop of [quit] over the labels. *)
Lemma close_loop (rest : list FloatingWindow.t) :
  forall (kept : list FloatingWindow.t) (w : world),
    floating_windows (app w) = kept ++ rest ->
    NoDup (map FloatingWindow.ident (kept ++ rest)) ->
    Forall (fun o => FloatingWindow.closed o = false) rest ->
    let w' := snd (for_each rest (fun x => try_pass (close x)) w) in
    fst (for_each rest (fun x => try_pass (close x)) w) = Returned tt /\
    faults w' = faults w /\
    next_ident w' = next_ident w /\
    app w' = set_floating_windows (kept ++ stuck (faults w) rest) (app w).
Proof.
  induction rest as [|x rest IH]; intros kept w Hl Hnd Hc; cbv zeta.
  - cbn. repeat split. rewrite <- Hl. destruct (app w); reflexivity.
  - cbn [for_each]. unfold bind.
    inversion Hc as [|? ? Hx Hrest]; subst.
    destruct (close_next x kept rest w Hl Hnd Hx) as (Hr & Hf & Hn & Ha).
    destruct (try_pass (close x) w) as [r w1]. cbn [fst snd] in *. subst r.
    unfold stuck. cbn [filter]. fold (stuck (faults w) rest).
    destruct (window_destroy_raises (faults w) (FloatingWindow.ident x)).
    + (* the label stays *)
      destruct (IH (kept ++ [x]) w1) as (H1 & H2 & H3 & H4).
      * rewrite Ha, <- app_assoc. reflexivity.
      * rewrite <- app_assoc. exact Hnd.
      * exact Hrest.
      * split; [exact H1 |]. split; [congruence |]. split; [congruence |].
        rewrite H4, Ha, Hf, <- app_assoc. reflexivity.
    + (* the label is closed and dropped *)
      destruct (IH kept w1) as (H1 & H2 & H3 & H4).
      * rewrite Ha. reflexivity.
      * rewrite map_app in *. cbn [map] in Hnd.
        apply NoDup_remove_1 in Hnd. exact Hnd.
      * exact Hrest.
      * split; [exact H1 |]. split; [congruence |]. split; [congruence |].
        rewrite H4, Ha, Hf. reflexivity.
Qed.

End ClosingFacts.

Section QuitTrackingFacts.
Import Py PyStr Application Session.

Lemma snd_bind {A B} (m : M world A) (k : A -> M world B) (w : world) :
  snd (bind m k w)
  = match m w with
    | (Returned a, w1) => snd (k a w1)
    | (Raised _, w1) => w1
    end.
Proof. unfold bind. destruct (m w) as [[a | e] w1]; reflexivity. Qed.

Lemma then_returned {A B} (m : M world A) (k : A -> M world B) (w : world)
      (a : A) :
  fst (m w) = Returned a -> bind m k w = k a (snd (m w)).
Proof.
  unfold bind. destruct (m w) as [r w1]. cbn [fst snd]. intros ->.
  reflexivity.
Qed.

Lemma then_raised {A B} (m : M world A) (k : A -> M world B) (w : world)
      (e : exn) :
  fst (m w) = Raised e -> bind m k w = (Raised e, snd (m w)).
Proof.
  unfold bind. destruct (m w) as [r w1]. cbn [fst snd]. intros ->.
  reflexivity.
Qed.

(** What [quit] leaves of the tracking list. *)
Lemma quit_tracking (w : world) :
  NoDup (idents w) ->
  Forall (fun o => FloatingWindow.closed o = false) (floating_windows (app w)) ->
  floating_windows (app (snd (quit w)))
  = (if tray_stop_raises w then floating_windows (app w)
     else stuck (faults w) (floating_windows (app w))) /\
  faults (snd (quit w)) = faults w /\
  next_ident (snd (quit w)) = next_ident w.
Proof.
  intros Hnd Hopen.
  unfold quit, try_except.
  match goal with
  | |- context [bind (gets app) ?k] => set (body := bind (gets app) k)
  end.
  assert (Hsnd : forall r w1, body w = (r, w1) ->
                 snd (match r with
                      | Returned a => (Returned a, w1)
                      | Raised _ => ret tt w1
                      end) = w1)
    by (intros [[] | e] w1 _; reflexivity).
  destruct (body w) as [r wq] eqn:Eb.
  rewrite (Hsnd r wq eq_refl). clear Hsnd.
  assert (Hq : wq = snd (body w)) by (rewrite Eb; reflexivity).
  clear Eb r. subst body.
  unfold bind at 1 in Hq. unfold gets at 1 in Hq. cbn iota beta in Hq.
  (* the listener *)
  set (stage1 := match hotkey_listener (app w) with
                 | Some l => bind (called StopHotkey) (fun _ => listener_stop l)
                 | None => ret tt
                 end) in Hq.
  assert (H1 : keeps_tracking stage1 /\ fst (stage1 w) = Returned tt).
  { subst stage1. destruct (hotkey_listener (app w)) as [l |].
    - split.
      + apply keeps_bind; [apply keeps_called |].
        intros _. apply (proj1 (listener_stop_keeps l)).
      + unfold bind, called, modify. cbn iota beta.
        apply (proj2 (listener_stop_keeps l)).
    - split; [apply keeps_ret | reflexivity]. }
  destruct H1 as [K1 R1].
  rewrite (then_returned stage1 _ w tt R1) in Hq.
  destruct (K1 w) as (L1 & F1 & N1).
  set (w1 := snd (stage1 w)) in *.
  (* the tray *)
  set (stage2 := match system_tray (app w) with
                 | Some s => bind (called StopTray) (fun _ => tray_stop s)
                 | None => ret tt
                 end) in Hq.
  assert (K2 : keeps_tracking stage2).
  { subst stage2. destruct (system_tray (app w)) as [s |]; [| apply keeps_ret].
    apply keeps_bind; [apply keeps_called |]. intros _. apply tray_stop_keeps. }
  destruct (K2 w1) as (L2 & F2 & N2).
  assert (R2 : fst (stage2 w1)
               = if tray_stop_raises w then Raised LibraryError else Returned tt).
  { subst stage2. unfold tray_stop_raises.
    destruct (system_tray (app w)) as [s |]; [| reflexivity].
    unfold bind at 1, called, modify. cbn iota beta.
    unfold tray_stop. destruct (SystemTray.icon s); [| reflexivity].
    unfold library_call, update, on_app.
    unfold bind, gets, raise, ret, modify.
    cbn [fst snd faults]. rewrite F1.
    destruct (icon_stop_raises (faults w)); reflexivity. }
  destruct (tray_stop_raises w).
  - rewrite (then_raised stage2 _ w1 LibraryError R2) in Hq. cbn [snd] in Hq.
    rewrite Hq. repeat split; congruence.
  - rewrite (then_returned stage2 _ w1 tt R2) in Hq.
    set (w2 := snd (stage2 w1)) in *.
    unfold bind at 1 in Hq. unfold gets at 1 in Hq. cbn iota beta in Hq.
    (* the labels *)
    destruct (close_loop (floating_windows (app w2)) [] w2 eq_refl
                ltac:(cbn [app]; rewrite L2, L1; exact Hnd)
                ltac:(rewrite L2, L1; exact Hopen))
      as (R3 & F3 & N3 & A3).
    cbn [app] in A3.
    rewrite (then_returned _ _ w2 tt R3) in Hq.
    set (w3 := snd (for_each (floating_windows (app w2))
                             (fun window => try_pass (close window)) w2)) in *.
    (* the prompt and the root *)
    set (stage4 := match input_window (app w) with
                   | Some _ =>
                       try_pass (bind (called HideInput) (fun _ => input_hide))
                   | None => ret tt
                   end) in Hq.
    set (stage5 := match root (app w) with
                   | Some _ =>
                       bind (called QuitRoot) (fun _ =>
                       bind root_quit (fun _ =>
                       bind (called DestroyRoot) (fun _ => root_destroy)))
                   | None => ret tt
                   end) in Hq.
    assert (K45 : keeps_tracking (bind stage4 (fun _ => stage5))).
    { apply keeps_bind.
      - subst stage4. destruct (input_window (app w)); [| apply keeps_ret].
        apply keeps_try_pass. apply keeps_bind; [apply keeps_called |].
        intros _. apply input_hide_keeps.
      - intros _. subst stage5. destruct (root (app w)); [| apply keeps_ret].
        apply keeps_bind; [apply keeps_called |]. intros _.
        apply keeps_bind; [apply root_quit_keeps |]. intros _.
        apply keeps_bind; [apply keeps_called |]. intros _.
        apply root_destroy_keeps. }
    destruct (K45 w3) as (L4 & F4 & N4).
    rewrite Hq, L4, F4, N4, A3.
    cbn [floating_windows set_floating_windows].
    rewrite F3, N3, F2, F1, N2, N1, L2, L1.
    repeat split.
Qed.

End QuitTrackingFacts.

(** ** The application: quitting and the tracking list over a session *)

Section SessionFacts.
Import Py PyStr Application Session.

Lemma stuck_none (f : Faults) (l : list FloatingWindow.t) :
  (forall id, window_destroy_raises f id = false) -> stuck f l = [].
Proof.
  intros Hok. unfold stuck. induction l as [|o l IH]; [reflexivity |].
  cbn [filter]. rewrite Hok. exact IH.
Qed.

(** X16.  [quit] on an application that tracks each open label once and
    whose tray stops without raising: the loop closes every label whose
    [destroy] goes through and drops it from the list, and passes over the
    others, so that what stays tracked is exactly the labels that could
    not be closed, in their order; with no such label the list ends
    empty. *)
Theorem quit_closes_every_label_it_can :
  forall w : world,
    NoDup (idents w) ->
    Forall (fun o => FloatingWindow.closed o = false)
           (floating_windows (app w)) ->
    tray_stop_raises w = false ->
    floating_windows (app (snd (quit w)))
    = stuck (faults w) (floating_windows (app w)) /\
    ((forall id, window_destroy_raises (faults w) id = false) ->
     floating_windows (app (snd (quit w))) = []).
Proof.
  intros w Hnd Hopen Htray.
  destruct (quit_tracking w Hnd Hopen) as (Hl & _).
  rewrite Htray in Hl.
  split; [exact Hl |].
  intros Hok. rewrite Hl. apply stuck_none. exact Hok.
Qed.

Lemma quit_closes_every_label_it_can_witness :
  let w := Samples.busy_world Samples.window_fault in
  NoDup (idents w) /\
  tray_stop_raises w = false /\
  idents w = [0; 1]%nat /\
  idents (snd (quit w)) = [0%nat].
Proof.
  intros w.
  assert (Hnd : NoDup (idents w)).
  { repeat constructor; intros H; vm_compute in H; intuition discriminate. }
  assert (Hopen : Forall (fun o => FloatingWindow.closed o = false)
                         (floating_windows (app w)))
    by (repeat constructor).
  destruct (quit_closes_every_label_it_can w Hnd Hopen eq_refl) as [Hl _].
  split; [exact Hnd |]. split; [reflexivity |]. split; [reflexivity |].
  unfold idents. rewrite Hl. reflexivity.
Defined.

(** The labels [quit] could not close are among those tracked before:
    no identity appears twice among them, and what held of every tracked
    label holds of them. *)
Lemma stuck_In (f : Faults) (o : FloatingWindow.t) (l : list FloatingWindow.t) :
  In o (stuck f l) -> In o l.
Proof.
  unfold stuck. intros H. apply filter_In in H. exact (proj1 H).
Qed.

Lemma stuck_NoDup (f : Faults) (l : list FloatingWindow.t) :
  NoDup (map FloatingWindow.ident l) ->
  NoDup (map FloatingWindow.ident (stuck f l)).
Proof.
  unfold stuck. induction l as [|o l IH]; intros Hnd; [constructor |].
  cbn [map] in Hnd. apply NoDup_cons_iff in Hnd. destruct Hnd as [Hn Hnd].
  cbn [filter].
  destruct (window_destroy_raises f (FloatingWindow.ident o));
    [| exact (IH Hnd)].
  cbn [map]. apply NoDup_cons; [| exact (IH Hnd)].
  intros Hin. apply Hn. apply in_map_iff in Hin.
  destruct Hin as (x & E & Hx).
  rewrite <- E. apply in_map. exact (stuck_In f x l Hx).
Qed.

Lemma stuck_Forall (P : FloatingWindow.t -> Prop) (f : Faults)
      (l : list FloatingWindow.t) :
  Forall P l -> Forall P (stuck f l).
Proof.
  rewrite !Forall_forall. intros H x Hx. apply H.
  exact (stuck_In f x l Hx).
Qed.

Lemma tracked_open (w : world) :
  tracked_well w ->
  Forall (fun o => FloatingWindow.closed o = false) (floating_windows (app w)).
Proof.
  intros [_ H]. eapply Forall_impl; [| exact H]. intros o [Hc _]. exact Hc.
Qed.

(** The shapes the list can take after a request. *)
Lemma tracked_same (w w' : world) :
  tracked_well w ->
  floating_windows (app w') = floating_windows (app w) ->
  (next_ident w <= next_ident w')%nat ->
  tracked_well w'.
Proof.
  intros [Hnd Hall] Hl Hn. unfold tracked_well, idents in *.
  rewrite Hl. split; [exact Hnd |].
  eapply Forall_impl; [| exact Hall]. intros o [Hc Hi]. split; [exact Hc | lia].
Qed.

Lemma tracked_without (w w' : world) (kept rest : list FloatingWindow.t)
      (o : FloatingWindow.t) :
  tracked_well w ->
  floating_windows (app w) = kept ++ o :: rest ->
  floating_windows (app w') = kept ++ rest ->
  (next_ident w <= next_ident w')%nat ->
  tracked_well w'.
Proof.
  intros [Hnd Hall] Hl Hl' Hn. unfold tracked_well, idents in *.
  rewrite Hl in *. rewrite Hl'. split.
  - rewrite map_app in *. cbn [map] in Hnd.
    apply NoDup_remove_1 in Hnd. exact Hnd.
  - apply Forall_app in Hall. destruct Hall as [Hk Hr].
    inversion Hr; subst. apply Forall_app. split.
    + eapply Forall_impl; [| exact Hk]. intros x [Hc Hi]. split; [exact Hc | lia].
    + eapply Forall_impl; [| eassumption]. intros x [Hc Hi].
      split; [exact Hc | lia].
Qed.

Lemma tracked_stuck (w w' : world) :
  tracked_well w ->
  floating_windows (app w') = stuck (faults w) (floating_windows (app w)) ->
  (next_ident w <= next_ident w')%nat ->
  tracked_well w'.
Proof.
  intros [Hnd Hall] Hl Hn. unfold tracked_well, idents in *.
  rewrite Hl. split.
  - apply stuck_NoDup. exact Hnd.
  - apply stuck_Forall.
    eapply Forall_impl; [| exact Hall]. intros x [Hc Hi]. split; [exact Hc | lia].
Qed.

Lemma tracked_with_new (w w' : world) (o : FloatingWindow.t) :
  tracked_well w ->
  floating_windows (app w') = floating_windows (app w) ++ [o] ->
  FloatingWindow.ident o = next_ident w ->
  FloatingWindow.closed o = false ->
  next_ident w' = S (next_ident w) ->
  tracked_well w'.
Proof.
  intros [Hnd Hall] Hl Hi Hc Hn. unfold tracked_well, idents in *.
  rewrite Hl, Hn. split.
  - rewrite map_app. cbn [map].
    apply (NoDup_Add (Add_app (FloatingWindow.ident o)
                              (map FloatingWindow.ident (floating_windows (app w)))
                              [])).
    rewrite app_nil_r. split; [exact Hnd |].
    intros Hin. apply in_map_iff in Hin. destruct Hin as (x & E & Hx).
    rewrite Forall_forall in Hall. destruct (Hall x Hx) as [_ Hlt]. lia.
  - apply Forall_app. split.
    + eapply Forall_impl; [| exact Hall]. intros x [Hx Hlt].
      split; [exact Hx | lia].
    + constructor; [| constructor]. split; [exact Hc | lia].
Qed.

End SessionFacts.

Section RequestFacts.
Import Py PyStr Application Session.

Lemma snd_try_pass (m : M world unit) (w : world) :
  snd (try_pass m w) = snd (m w).
Proof.
  unfold try_pass, try_except, ret. destruct (m w) as [[[] | e] w1]; reflexivity.
Qed.

(** [create_floating_window], in one piece. *)
Lemma create_result (text : str) (w : world) :
  create_floating_window text w
  = (Returned tt,
     match _calculate_window_position (app w) with
     | (Returned p, a) =>
         mkWorld
           (set_floating_windows
              (floating_windows a
               ++ [FloatingWindow.show (fst p) (snd p)
                     (FloatingWindow.init (next_ident w) text)]) a)
           (keyboard w) (faults w) (calls w) (S (next_ident w))
     | (Raised _, a) =>
         mkWorld a (keyboard w) (faults w) (calls w) (S (next_ident w))
     end).
Proof.
  unfold create_floating_window, try_except, bind, fresh_ident, update,
    on_app, modify, ret.
  cbn [fst snd app next_ident keyboard faults calls].
  destruct (_calculate_window_position (app w)) as [[p | e] a]; reflexivity.
Qed.

Lemma calculate_keeps_list (a : Application.t) :
  floating_windows (snd (_calculate_window_position a)) = floating_windows a.
Proof.
  unfold _calculate_window_position.
  destruct (root a); [| reflexivity].
  destruct (_ <? _); reflexivity.
Qed.

Lemma create_tracked (text : str) (w : world) :
  tracked_well w -> tracked_well (snd (create_floating_window text w)).
Proof.
  intros Hw. rewrite create_result. cbn [snd].
  pose proof (calculate_keeps_list (app w)) as Hk.
  destruct (_calculate_window_position (app w)) as [[p | e] a]; cbn [snd] in Hk.
  - eapply tracked_with_new
      with (o := FloatingWindow.show (fst p) (snd p)
                   (FloatingWindow.init (next_ident w) text));
      [exact Hw | cbn; rewrite Hk; reflexivity | reflexivity | reflexivity
      | reflexivity].
  - apply (tracked_same w); [exact Hw | exact Hk | cbn; lia].
Qed.

Lemma show_impl_keeps : keeps_tracking _show_input_window_impl.
Proof.
  intros w.
  unfold _show_input_window_impl, try_except, bind, gets, update, on_app,
    modify, ret, InputWindow.show.
  unfold bind, gets, modify, ret. cbn [fst snd app].
  destruct (input_window (app w)) as [i |]; cbn [fst snd];
    [destruct (InputWindow.window (prompt w)) eqn:E; cbn; repeat split |].
  cbn. repeat split.
Qed.

Lemma submit_result (w : world) :
  snd (input_on_submit w)
  = match InputWindow.entry (prompt w) with
    | None => w
    | Some content =>
        if truthy (strip content)
        then snd (input_hide (snd (create_floating_window (strip content) w)))
        else w
    end.
Proof.
  unfold input_on_submit.
  destruct (InputWindow.entry (prompt w)) as [content |] eqn:He.
  - rewrite (on_submit_cases _ _ _ _ w content He).
    destruct (truthy (strip content)); [| reflexivity].
    rewrite (then_returned _ _ w tt)
      by (rewrite create_result; reflexivity).
    reflexivity.
  - unfold InputWindow._on_submit, bind, gets, raise. rewrite He. reflexivity.
Qed.

Lemma In_split_at (o : FloatingWindow.t) (l : list FloatingWindow.t) :
  In o l -> exists kept rest, l = kept ++ o :: rest.
Proof. apply in_split. Qed.

Lemma confirm_tracked (id : nat) (w : world) :
  tracked_well w -> tracked_well (serve (Confirm id) w).
Proof.
  intros Hw. cbn [serve]. unfold find.
  destruct (List.find _ _) as [o |] eqn:Ef; [| exact Hw].
  apply find_some in Ef. destruct Ef as [Hin _].
  destruct (in_split _ _ Hin) as (kept & rest & El).
  pose proof (tracked_open w Hw) as Hopen.
  assert (Hc : FloatingWindow.closed o = false).
  { rewrite Forall_forall in Hopen. apply Hopen. exact Hin. }
  destruct Hw as [Hnd Hall]. unfold idents in Hnd.
  destruct (close_next o kept rest w El ltac:(rewrite <- El; exact Hnd) Hc)
    as (_ & _ & Hn & Ha).
  rewrite snd_try_pass in Hn, Ha.
  destruct (window_destroy_raises (faults w) (FloatingWindow.ident o)).
  - apply (tracked_same w); [split; assumption | rewrite Ha, El; reflexivity
                            | lia].
  - apply (tracked_without w _ kept rest o);
      [split; assumption | exact El | rewrite Ha; reflexivity | lia].
Qed.

Lemma remove_tracked (id : nat) (w : world) :
  tracked_well w -> tracked_well (snd (remove_floating_window id w)).
Proof.
  intros Hw.
  unfold remove_floating_window, try_except, bind, gets, update, on_app,
    modify, ret.
  cbn [fst snd].
  destruct (member id (floating_windows (app w))) eqn:Em; cbn [fst snd].
  - apply member_In in Em.
    destruct (In_split_first id _ Em) as (kept & o & rest & El & Eo & Hn).
    apply (tracked_without w _ kept rest o);
      [exact Hw | exact El | | cbn; lia].
    cbn [app floating_windows set_floating_windows].
    rewrite El. apply remove_middle; assumption.
  - exact Hw.
Qed.

Lemma serve_tracked (q : request) (w : world) :
  tracked_well w -> tracked_well (serve q w).
Proof.
  intros Hw. destruct q as [text | id | id | | content | | |].
  - apply create_tracked. exact Hw.
  - apply confirm_tracked. exact Hw.
  - apply remove_tracked. exact Hw.
  - cbn [serve]. destruct (show_impl_keeps w) as (Hl & _ & Hn).
    apply (tracked_same w); [exact Hw | exact Hl | lia].
  - cbn [serve]. destruct (prompt_open w); [| exact Hw].
    apply (tracked_same w); [exact Hw | reflexivity | cbn; lia].
  - cbn [serve]. destruct (prompt_open w); [| exact Hw].
    rewrite submit_result.
    destruct (InputWindow.entry (prompt w)) as [content |]; [| exact Hw].
    destruct (truthy (strip content)); [| exact Hw].
    pose proof (create_tracked (strip content) w Hw) as Hc.
    destruct (input_hide_keeps (snd (create_floating_window (strip content) w)))
      as (Hl & _ & Hn).
    apply (tracked_same _ _ Hc Hl). lia.
  - cbn [serve]. destruct (prompt_open w); [| exact Hw].
    destruct (input_hide_keeps w) as (Hl & _ & Hn).
    apply (tracked_same w); [exact Hw | exact Hl |].
    unfold input_on_cancel, InputWindow._on_cancel. fold input_hide. lia.
  - cbn [serve].
    destruct (quit_tracking w (proj1 Hw) (tracked_open w Hw)) as (Hl & _ & Hn).
    destruct (tray_stop_raises w).
    + apply (tracked_same w); [exact Hw | exact Hl | lia].
    + apply (tracked_stuck w); [exact Hw | exact Hl | lia].
Qed.

(** X17.  Over any sequence of requests (labels created, confirmed for
    deletion or removed, the prompt shown, edited, submitted or cancelled,
    the application quit, whatever the toolkit's failures), the tracking
    list holds each label at most once, holds open labels only, and never
    holds an identity that is still to be given out. *)
Theorem tracking_list_stays_well_formed :
  forall (qs : list request) (w : world),
    tracked_well w -> tracked_well (serve_all qs w).
Proof.
  unfold serve_all. induction qs as [|q qs IH]; intros w Hw; cbn [fold_left].
  - exact Hw.
  - apply IH. apply serve_tracked. exact Hw.
Qed.

Lemma tracking_list_stays_well_formed_witness :
  let w := Samples.world Samples.window_fault in
  let qs := [Hotkey; Typed (of_string " a "); Enter; Create (of_string "b");
             Confirm 0; Confirm 1; Create (of_string "c"); Remove 5; Quit] in
  tracked_well w /\
  idents (serve_all qs w) = [0%nat] /\
  NoDup (idents (serve_all qs w)).
Proof.
  intros w qs.
  assert (Hw : tracked_well w) by (split; constructor).
  split; [exact Hw |]. split; [reflexivity |].
  exact (proj1 (tracking_list_stays_well_formed qs w Hw)).
Defined.

End RequestFacts.

(** ** The application: the prompt and the labels it creates *)

Section PromptSessionFacts.
Import Py PyStr Application Session.

(** X18.  The hotkey's handler never raises and leaves exactly one prompt
    open.  When a prompt is already open the handler changes nothing, so
    the line typed so far stays; when none is open the new prompt starts
    with an empty line.  The labels are not touched. *)
Theorem hotkey_shows_one_prompt :
  forall w : world,
    let w1 := snd (_show_input_window_impl w) in
    fst (_show_input_window_impl w) = Returned tt /\
    prompt_open w1 = true /\
    (prompt_open w = true -> w1 = w) /\
    (prompt_open w = false -> InputWindow.entry (prompt w1) = Some []) /\
    _show_input_window_impl w1 = (Returned tt, w1) /\
    floating_windows (app w1) = floating_windows (app w).
Proof.
  intros [[r hl st iw fw off step] kb f c n]. cbv zeta.
  destruct iw as [[[t |] ent] |]; cbn; repeat split; discriminate.
Qed.

Lemma hotkey_shows_one_prompt_witness :
  let w := Samples.typing (of_string "draft") (Samples.world Samples.no_faults) in
  prompt_open w = true /\
  InputWindow.entry (prompt (snd (_show_input_window_impl w)))
  = Some (of_string "draft") /\
  InputWindow.entry
    (prompt (snd (_show_input_window_impl (Samples.world Samples.no_faults))))
  = Some [].
Proof.
  intros w. split; [reflexivity |].
  destruct (hotkey_shows_one_prompt w) as (_ & _ & Hsame & _).
  rewrite (Hsame eq_refl). split; reflexivity.
Defined.

Lemma hide_result (w : world) :
  prompt_open w = true ->
  snd (input_hide w)
  = if input_destroy_raises (faults w) then w
    else set_prompt (InputWindow.mk None None) w.
Proof.
  unfold prompt_open, input_hide, InputWindow.hide, library_call,
    bind, gets, modify, raise, ret.
  cbn [fst snd].
  destruct (InputWindow.window (prompt w)); [| discriminate].
  intros _. destruct (input_destroy_raises (faults w)); reflexivity.
Qed.



(** X20.  [<Escape>], or the close button, in the open prompt: no label
    is created, and when the prompt can be destroyed it is gone together
    with the line typed, so that the next hotkey press opens a prompt
    with an empty line. *)
Theorem cancel_discards_the_line :
  forall w : world,
    prompt_open w = true ->
    input_destroy_raises (faults w) = false ->
    let w1 := snd (input_on_cancel w) in
    floating_windows (app w1) = floating_windows (app w) /\
    next_ident w1 = next_ident w /\
    prompt w1 = InputWindow.mk None None /\
    InputWindow.entry (prompt (snd (_show_input_window_impl w1))) = Some [].
Proof.
  intros w Hopen Hd. cbv zeta.
  unfold input_on_cancel, InputWindow._on_cancel. fold input_hide.
  rewrite (hide_result w Hopen), Hd.
  repeat split.
Qed.

Lemma cancel_discards_the_line_witness :
  let w := Samples.typing (of_string "draft") (Samples.world Samples.no_faults) in
  prompt_open w = true /\
  InputWindow.entry (prompt w) = Some (of_string "draft") /\
  InputWindow.entry
    (prompt (snd (_show_input_window_impl (snd (input_on_cancel w)))))
  = Some [].
Proof.
  intros w.
  destruct (cancel_discards_the_line w eq_refl eq_refl) as (_ & _ & _ & H).
  split; [reflexivity |]. split; [reflexivity | exact H].
Defined.




End PromptSessionFacts.

(** ** The application: deleting a label, and where labels end up *)

Section DeleteFacts.
Import Py PyStr Application Session.

Lemma find_absent (id : nat) (w : world) :
  ~ In id (idents w) -> find id w = None.
Proof.
  intros Hn. unfold find.
  destruct (List.find _ _) as [o |] eqn:Ef; [| reflexivity].
  apply find_some in Ef. destruct Ef as [Hin E]. apply Nat.eqb_eq in E.
  exfalso. apply Hn. unfold idents. rewrite <- E. apply in_map. exact Hin.
Qed.

(** X22.  Confirming the deletion of a tracked label, in an application
    that tracks each open label once.  When the label's window can be
    destroyed, the label leaves the list and the other labels stay, in
    their order; confirming again, from a second popup of the same label,
    then does nothing.  When [destroy] raises, the exception leaves
    [close] before the label is marked closed or removed: the application
    still tracks it. *)
Theorem confirmed_delete_untracks_the_label :
  forall (w : world) (id : nat) (o : FloatingWindow.t),
    tracked_well w ->
    find id w = Some o ->
    let w' := serve (Confirm id) w in
    FloatingWindow.ident o = id /\
    (window_destroy_raises (faults w) id = false ->
     (exists kept rest,
         floating_windows (app w) = kept ++ o :: rest /\
         floating_windows (app w') = kept ++ rest) /\
     ~ In id (idents w') /\
     serve (Confirm id) w' = w') /\
    (window_destroy_raises (faults w) id = true -> app w' = app w).
Proof.
  intros w id o Hw Hf. cbv zeta.
  assert (Hfind := Hf). unfold find in Hfind.
  apply find_some in Hfind. destruct Hfind as [Hin E]. apply Nat.eqb_eq in E.
  destruct (in_split _ _ Hin) as (kept & rest & El).
  pose proof (tracked_open w Hw) as Hopen.
  assert (Hc : FloatingWindow.closed o = false).
  { rewrite Forall_forall in Hopen. apply Hopen. exact Hin. }
  destruct Hw as [Hnd Hall]. unfold idents in Hnd.
  assert (Hnd' := Hnd). rewrite El in Hnd'.
  destruct (close_next o kept rest w El Hnd' Hc) as (_ & _ & Hn & Ha).
  rewrite snd_try_pass in Hn, Ha. rewrite E in Ha.
  cbn [serve]. rewrite Hf.
  split; [exact E |].
  split; intros Hd; rewrite Hd in Ha.
  - assert (Hgone : ~ In id (idents (snd (close o w)))).
    { unfold idents. rewrite Ha. cbn [floating_windows set_floating_windows].
      rewrite map_app in *. cbn [map] in Hnd'. rewrite E in Hnd'.
      apply NoDup_remove_2 in Hnd'. exact Hnd'. }
    split; [| split; [exact Hgone |]].
    + exists kept, rest. split; [exact El |]. rewrite Ha. reflexivity.
    + rewrite (find_absent id _ Hgone). reflexivity.
  - rewrite Ha, <- El. destruct (app w); reflexivity.
Qed.

Lemma confirmed_delete_untracks_the_label_witness :
  let w := Samples.busy_world Samples.window_fault in
  tracked_well w /\
  idents (serve (Confirm 1) w) = [0%nat] /\
  idents (serve (Confirm 0) w) = [0; 1]%nat.
Proof.
  intros w.
  assert (Hw : tracked_well w).
  { split.
    - repeat constructor; intros H; vm_compute in H; intuition discriminate.
    - repeat constructor. }
  assert (Hf : exists o, find 1 w = Some o) by (eexists; reflexivity).
  destruct Hf as [o Hf].
  destruct (confirmed_delete_untracks_the_label w 1 o Hw Hf) as (_ & _ & _).
  split; [exact Hw |]. split; reflexivity.
Defined.

(** X23.  On a fresh application, every position returned keeps the
    label it is computed for, 250 by 100, between the margins from top to
    bottom when the screen is at least 140 high, and it is always 270
    left of the right edge.  The label placed there is 500 by 200: its
    bottom edge can lie up to 80 pixels below the bottom margin. *)
Theorem positions_keep_the_vertical_margins :
  forall (a : Application.t) (r : Root) (n : nat),
    root a = Some r ->
    window_offset a = 0 ->
    window_offset_step a = 60 ->
    Forall (fun o =>
              exists y,
                o = Returned (winfo_screenwidth r - 270, y) /\
                20 <= y /\
                (140 <= winfo_screenheight r ->
                 y + 100 <= winfo_screenheight r - 20 /\
                 y + 200 <= winfo_screenheight r - 20 + 100))
           (positions n a).
Proof.
  intros a r n Hr Ho Hs.
  destruct (column_capacity (winfo_screenheight r)) as (k & Hk & Hfit & Hoff).
  apply Forall_forall. intros o Hin.
  apply In_nth_error in Hin. destruct Hin as [i Hi].
  assert (Hlen : forall m b, List.length (positions m b) = m).
  { induction m as [|m IH]; intros b; [reflexivity |].
    cbn [positions]. destruct (_calculate_window_position b).
    cbn [List.length]. rewrite IH. reflexivity. }
  assert (Hlt : (i < n)%nat).
  { rewrite <- (Hlen n a). apply nth_error_Some. congruence. }
  pose proof (positions_from r k Hk Hfit Hoff n a 0 i Hr Hs Ho
                ltac:(lia) Hlt) as Hp.
  cbv zeta in Hp. rewrite Z.add_0_l in Hp. rewrite Hp in Hi.
  injection Hi as <-.
  pose proof (Z.mod_pos_bound (Z.of_nat i) (k + 1) ltac:(lia)) as Hj.
  set (j := Z.of_nat i mod (k + 1)) in *.
  exists (if j <? k then 20 + 60 * j else 20).
  replace (winfo_screenwidth r - 250 - 20) with (winfo_screenwidth r - 270)
    by lia.
  split; [reflexivity |].
  destruct (Z.ltb_spec j k) as [Hjk | Hjk].
  - specialize (Hfit j ltac:(lia)). split; [lia |]. intros _. lia.
  - split; [lia |]. intros Hh. lia.
Qed.

Lemma positions_keep_the_vertical_margins_witness :
  let a := Samples.app Samples.small_root in
  root a = Some Samples.small_root /\
  window_offset a = 0 /\
  Forall (fun o => exists y, o = Returned (370, y) /\ 20 <= y /\ y + 100 <= 280)
         (positions 5 a).
Proof.
  intros a.
  pose proof (positions_keep_the_vertical_margins a Samples.small_root 5
                eq_refl eq_refl eq_refl) as H.
  split; [reflexivity |]. split; [reflexivity |].
  eapply Forall_impl; [| exact H].
  intros o (y & E & Hy & Hh). exists y.
  split; [exact E |]. split; [exact Hy |].
  apply Hh. vm_compute. discriminate.
Defined.

End DeleteFacts.
